(** * IdentityService (particl-market): a shallow embedding and its properties

    The development follows [src/api/services/model/IdentityService.ts].
    The service is asynchronous but strictly sequential (every call is
    awaited), so it is embedded in a state-and-exception monad over a
    [World] that holds the identity table, the profiles, the log of the
    calls made to the collaborators and the number of [Math.random()]
    draws consumed so far. *)

From Stdlib Require Import List String Ascii ZArith Bool Arith Lia.
Import ListNotations.
Local Open Scope string_scope.
Local Open Scope Z_scope.

(** ** Data *)

(** [IdentityType] (enums/IdentityType). *)
Inductive IdentityType := PROFILE | MARKET.

Definition IdentityType_eqb (a b : IdentityType) : bool :=
  match a, b with
  | PROFILE, PROFILE | MARKET, MARKET => true
  | _, _ => false
  end.

(** The identity record, in the JSON shape the service reads and writes
    ([identity.toJSON()], [resources.Identity]).  The columns that a
    market identity leaves out are optional. *)
Module Identity.
Record t := mk {
  id : Z;
  profile_id : Z;
  wallet : string;
  address : string;
  hdseedid : option string;
  path : option string;
  mnemonic : option string;
  passphrase : option string;
  type : IdentityType
}.
End Identity.

(** [IdentityCreateRequest]: the object literals built at lines 129-136 and
    173-182. *)
Module IdentityCreateRequest.
Record t := mk {
  profile_id : Z;
  wallet : string;
  address : string;
  hdseedid : option string;
  path : option string;
  mnemonic : option string;
  passphrase : option string;
  type : IdentityType
}.
End IdentityCreateRequest.

(** [IdentityUpdateRequest]: the fields read at lines 190-196, and the
    derivation path the request carries besides them. *)
Module IdentityUpdateRequest.
Record t := mk {
  wallet : string;
  address : string;
  hdseedid : option string;
  path : option string;
  mnemonic : option string;
  passphrase : option string;
  type : IdentityType
}.
End IdentityUpdateRequest.

(** [resources.Profile], with the identities attached to it. *)
Module Profile.
Record t := mk {
  id : Z;
  name : string;
  Identities : list Identity.t
}.
End Profile.

(** The wallet RPC results (omp-lib/dist/interfaces/rpc), restricted to the
    fields the service reads. *)
Module RpcWallet.
Record t := mk { name : string }.
End RpcWallet.

Module RpcMnemonic.
Record t := mk { mnemonic : string }.
End RpcMnemonic.

Module RpcExtKey.
Record t := mk {
  type : string;
  key_type : string;
  label : string;
  current_master : string;
  evkey : string;
  path : string
}.
End RpcExtKey.

Module RpcExtKeyInfo.
Record t := mk { path : string }.
End RpcExtKeyInfo.

Module RpcExtKeyResult.
Record t := mk {
  id : string;
  account : string;
  key_info : RpcExtKeyInfo.t
}.
End RpcExtKeyResult.

Module RpcWalletInfo.
Record t := mk { hdseedid : string }.
End RpcWalletInfo.

(** The argument of [NotFoundException]: an id or a wallet name/address. *)
Inductive LookupKey :=
| ById (id : Z)
| ByText (s : string).

(** The exceptions a run can end with. *)
Inductive Exception :=
| NotFoundException (key : LookupKey)
| ModelNotFoundException (model : string)
| MessageException (msg : string)
| ValidationException
| TypeError (msg : string)
| RpcFailure (msg : string).

(** A JavaScript value of the untyped parameter array handed to
    [coreRpcService.mnemonic]. *)
Inductive JsValue :=
| JsString (s : string)
| JsNumber (n : Z)
| JsBoolean (b : bool).

(** ** The collaborators and the log of calls *)

(** A call made by the service to one of its collaborators. *)
Inductive Call :=
| CreateAndLoadWallet (name : string) (disablePrivateKeys blank : bool)
| Mnemonic (params : list JsValue)
| ExtKeyGenesisImport (wallet : string) (params : list string)
| ExtKeyList (wallet : string) (showSecrets : bool)
| ExtKeyInfo (wallet key path : string)
| ExtKeyAltVersion (key : string)
| ExtKeyImport (wallet key label : string) (bip44 : bool)
| ExtKeySetMaster (wallet keyId : string)
| ExtKeyDeriveAccount (wallet label : string)
| ExtKeySetDefaultAccount (wallet accountId : string)
| GetNewAddress (wallet : string)
| GetWalletInfo (wallet : string)
| ProfileFindOne (id : Z) (withRelated : bool)
| RepoFindAll
| RepoFindAllByProfileId (profileId : Z) (withRelated : bool)
| RepoFindOne (id : Z) (withRelated : bool)
| RepoFindOneByWalletName (wallet : string) (withRelated : bool)
| RepoFindOneByAddress (address : string) (withRelated : bool)
| RepoCreate (body : IdentityCreateRequest.t)
| RepoUpdate (id : Z) (data : Identity.t)
| RepoDestroy (id : Z).

(** What the collaborator answered. *)
Inductive Reply :=
| Threw (e : Exception)
| RVoid
| RWallet (w : RpcWallet.t)
| RMnemonic (m : RpcMnemonic.t)
| RExtKeys (keys : list RpcExtKey.t)
| RExtKeyResult (r : RpcExtKeyResult.t)
| RString (s : string)
| RWalletInfo (i : RpcWalletInfo.t)
| RProfile (p : Profile.t)
| RIdentity (i : option Identity.t)
| RIdentities (l : list Identity.t).

Definition Event : Type := Call * Reply.

(** [CoreRpcService]: the wallet-custody process is outside the program.
    Each operation is a function of the calls answered so far and of its
    arguments, and either fails or returns its result, so that any
    deterministic wallet, stateful or not, is an instance. *)
Module CoreRpcService.
Record t := mk {
  createAndLoadWallet : list Event -> string -> bool -> bool -> Exception + RpcWallet.t;
  mnemonic : list Event -> list JsValue -> Exception + RpcMnemonic.t;
  extKeyGenesisImport : list Event -> string -> list string -> Exception + unit;
  extKeyList : list Event -> string -> bool -> Exception + list RpcExtKey.t;
  extKeyInfo : list Event -> string -> string -> string -> Exception + RpcExtKeyResult.t;
  extKeyAltVersion : list Event -> string -> Exception + string;
  extKeyImport : list Event -> string -> string -> string -> bool -> Exception + RpcExtKeyResult.t;
  extKeySetMaster : list Event -> string -> string -> Exception + unit;
  extKeyDeriveAccount : list Event -> string -> string -> Exception + RpcExtKeyResult.t;
  extKeySetDefaultAccount : list Event -> string -> string -> Exception + unit;
  getNewAddress : list Event -> string -> Exception + string;
  getWalletInfo : list Event -> string -> Exception + RpcWalletInfo.t
}.
End CoreRpcService.

(** The [@validate()] decorator checks the request against the decorators
    of its class, which are declared outside this file: the two checks
    are parameters of the service. *)
Module RequestValidation.
Record t := mk {
  validCreate : IdentityCreateRequest.t -> bool;
  validUpdate : IdentityUpdateRequest.t -> bool
}.
End RequestValidation.

(** The state a run reads and writes. *)
Record World := mkWorld {
  identities : list Identity.t;
  profiles : list Profile.t;
  trace : list Event;
  random_calls : nat
}.

Definition log (e : Event) (w : World) : World :=
  mkWorld (identities w) (profiles w) (trace w ++ [e])%list (random_calls w).

Definition set_identities (rows : list Identity.t) (w : World) : World :=
  mkWorld rows (profiles w) (trace w) (random_calls w).

Definition draw (n : nat) (w : World) : World :=
  mkWorld (identities w) (profiles w) (trace w) (random_calls w + n)%nat.

(** The events a run from [w] to [w'] added to the log. *)
Definition events_since (w w' : World) : list Event :=
  skipn (List.length (trace w)) (trace w').

(** ** The monad: state, and an exception or a value *)

Definition M (A : Type) : Type := World -> (Exception + A) * World.

Definition ret {A} (a : A) : M A := fun w => (inr a, w).

Definition throw {A} (e : Exception) : M A := fun w => (inl e, w).

Definition bind {A B} (m : M A) (k : A -> M B) : M B :=
  fun w =>
    match m w with
    | (inl e, w') => (inl e, w')
    | (inr a, w') => k a w'
    end.

Declare Scope io_scope.
Delimit Scope io_scope with io.
Notation "x <- m ;; k" := (bind m (fun x => k))
  (at level 100, m at next level, right associativity) : io_scope.
Notation "m ;;; k" := (bind m (fun _ => k))
  (at level 100, right associativity) : io_scope.
Local Open Scope io_scope.

(** A call to a collaborator: run it and append the call and its answer to
    the log. *)
Definition perform {A} (c : Call) (reply : A -> Reply)
    (f : World -> (Exception + A) * World) : M A :=
  fun w =>
    match f w with
    | (inl e, w') => (inl e, log (c, Threw e) w')
    | (inr a, w') => (inr a, log (c, reply a) w')
    end.

(** A wallet RPC: the answer depends on the log, the world is not changed. *)
Definition rpc {A} (c : Call) (reply : A -> Reply)
    (f : list Event -> Exception + A) : M A :=
  perform c reply (fun w => (f (trace w), w)).

(** ** The identity store and the profile lookup *)

Module IdentityRepository.

(** Modelled from the spec: IdentityRepository is not under src/.  The
    primary key of a record is its id. *)
Definition hasId (id : Z) (r : Identity.t) : bool := Identity.id r =? id.

(** Modelled from the spec: IdentityRepository is not under src/.  The
    store is durable keyed storage of identity records, here the list of
    its rows in the order of their creation; a lookup by
    primary key returns the stored representation or an absence signal
    ([None] for JavaScript's [null]). *)
Definition lookup (id : Z) (rows : list Identity.t) : option Identity.t :=
  find (hasId id) rows.

(** Modelled from the spec: the id is assigned on creation; the table's
    [increments] column takes the next number after the largest one. *)
Definition nextId (rows : list Identity.t) : Z :=
  1 + fold_right Z.max 0 (map Identity.id rows).

(** Modelled from the spec: the stored representation of a create request
    is the request with its assigned id (timestamps are left out). *)
Definition fromRequest (id : Z) (body : IdentityCreateRequest.t) : Identity.t :=
  Identity.mk id
    (IdentityCreateRequest.profile_id body)
    (IdentityCreateRequest.wallet body)
    (IdentityCreateRequest.address body)
    (IdentityCreateRequest.hdseedid body)
    (IdentityCreateRequest.path body)
    (IdentityCreateRequest.mnemonic body)
    (IdentityCreateRequest.passphrase body)
    (IdentityCreateRequest.type body).

(** Modelled from the spec: the record written by update(id, record) is
    stored under [id]. *)
Definition withId (id : Z) (data : Identity.t) : Identity.t :=
  Identity.mk id
    (Identity.profile_id data) (Identity.wallet data) (Identity.address data)
    (Identity.hdseedid data) (Identity.path data) (Identity.mnemonic data)
    (Identity.passphrase data) (Identity.type data).

(** Modelled from the spec: update replaces the full record. *)
Definition replace (id : Z) (data : Identity.t) (rows : list Identity.t)
  : list Identity.t :=
  map (fun r => if hasId id r then withId id data else r) rows.

(** Modelled from the spec: delete removes the record stored under the
    id, if any. *)
Definition remove (id : Z) (rows : list Identity.t) : list Identity.t :=
  filter (fun r => negb (hasId id r)) rows.

(** Modelled from the spec: findAll, no filtering, stable order. *)
Definition findAll : M (list Identity.t) :=
  perform RepoFindAll RIdentities (fun w => (inr (identities w), w)).

(** Modelled from the spec: findAllByProfileId(id). *)
Definition findAllByProfileId (profileId : Z) (withRelated : bool)
  : M (list Identity.t) :=
  perform (RepoFindAllByProfileId profileId withRelated) RIdentities
    (fun w => (inr (filter (fun r => Identity.profile_id r =? profileId)
                           (identities w)), w)).

(** Modelled from the spec: findById(id), the record or the absence
    signal. *)
Definition findOne (id : Z) (withRelated : bool) : M (option Identity.t) :=
  perform (RepoFindOne id withRelated) RIdentity
    (fun w => (inr (lookup id (identities w)), w)).

(** Modelled from the spec: findByWalletName(name). *)
Definition findOneByWalletName (wallet : string) (withRelated : bool)
  : M (option Identity.t) :=
  perform (RepoFindOneByWalletName wallet withRelated) RIdentity
    (fun w => (inr (find (fun r => String.eqb (Identity.wallet r) wallet)
                         (identities w)), w)).

(** Modelled from the spec: findByAddress(address). *)
Definition findOneByAddress (address : string) (withRelated : bool)
  : M (option Identity.t) :=
  perform (RepoFindOneByAddress address withRelated) RIdentity
    (fun w => (inr (find (fun r => String.eqb (Identity.address r) address)
                         (identities w)), w)).

(** Modelled from the spec: create(record) persists the record under a
    newly assigned id and returns the stored representation. *)
Definition create (body : IdentityCreateRequest.t) : M Identity.t :=
  perform (RepoCreate body) (fun r => RIdentity (Some r))
    (fun w =>
       let row := fromRequest (nextId (identities w)) body in
       (inr row, set_identities (identities w ++ [row])%list w)).

(** Modelled from the spec: update(id, record) replaces the record
    stored under [id] wholesale and returns the stored representation, or
    the absence signal when there is none. *)
Definition update (id : Z) (data : Identity.t) : M (option Identity.t) :=
  perform (RepoUpdate id data) RIdentity
    (fun w =>
       match lookup id (identities w) with
       | None => (inr None, w)
       | Some _ =>
           (inr (Some (withId id data)),
            set_identities (replace id data (identities w)) w)
       end).

(** Modelled from the spec: delete(id). *)
Definition destroy (id : Z) : M unit :=
  perform (RepoDestroy id) (fun _ => RVoid)
    (fun w => (inr tt, set_identities (remove id (identities w)) w)).

End IdentityRepository.

Module ProfileService.

(** Modelled from the spec: ProfileService is not under src/.
    findOne(profileId) returns the profile with its associated identities
    attached, and fails with NotFound when there is no such profile.  The
    identities attached to a profile are what the profile collaborator
    reports: the service does not assume they are rows of the identity
    store, and neither does the model, so that what is proved for every
    world holds in particular when the two agree. *)
Definition findOne (id : Z) (withRelated : bool) : M Profile.t :=
  perform (ProfileFindOne id withRelated) RProfile
    (fun w =>
       match find (fun p => Profile.id p =? id) (profiles w) with
       | Some p => (inr p, w)
       | None => (inl (NotFoundException (ById id)), w)
       end).

End ProfileService.

(** ** The passphrase generator *)

(** [[...s]]: the characters of a string. *)
Definition spread (s : string) : list ascii := list_ascii_of_string s.

(** [Array.prototype.join('')] on an array of characters in which some
    elements may be [undefined]: those contribute nothing. *)
Fixpoint join (l : list (option ascii)) : string :=
  match l with
  | [] => EmptyString
  | Some c :: l' => String c (join l')
  | None :: l' => join l'
  end.

(** [createRandom] (lines 209-219).  [rand i n] is the value of
    [Math.random() * n | 0] at the [i]-th element of the array: the
    floating-point product and its truncation to an integer are taken as
    given. *)
Definition createRandom (rand : nat -> nat -> nat) (length : nat)
    (caps lower numbers unique : bool) : string :=
  let capsChars := if caps then spread "ABCDEFGHIJKLMNOPQRSTUVWXYZ" else [] in
  let lowerChars := if lower then spread "abcdefghijklmnopqrstuvwxyz" else [] in
  let numChars := if numbers then spread "0123456789" else [] in
  let uniqueChars := if unique then spread "~!@#$%^&*()_+-=[]{};:,.<>?" else [] in
  let selectedChars := (capsChars ++ lowerChars ++ numChars ++ uniqueChars)%list in
  join (map (fun i => nth_error selectedChars (rand i (List.length selectedChars)))
            (seq 0 length)).

(** [Math.random() * n | 0] is an index below [n] when [n] is positive:
    [Math.random()] is at least 0 and less than 1. *)
Definition in_range (rand : nat -> nat -> nat) : Prop :=
  forall i n, (0 < n)%nat -> (rand i n < n)%nat.

(** ** The service *)

Section IdentityService.

Variable core : CoreRpcService.t.
Variable validation : RequestValidation.t.

(** [random k n]: the value of [Math.random() * n | 0] at the [k]-th draw
    of the process. *)
Variable random : nat -> nat -> nat.

Definition withRandom {A} (n : nat) (f : (nat -> nat -> nat) -> A) : M A :=
  fun w => (inr (f (fun i => random (random_calls w + i)%nat)), draw n w).

Definition validate (ok : bool) : M unit :=
  if ok then ret tt else throw ValidationException.

Definition findAll : M (list Identity.t) :=
  IdentityRepository.findAll.

Definition findAllByProfileId (profileId : Z) (withRelated : bool)
  : M (list Identity.t) :=
  IdentityRepository.findAllByProfileId profileId withRelated.

Definition findOne (id : Z) (withRelated : bool) : M Identity.t :=
  identity <- IdentityRepository.findOne id withRelated ;;
  match identity with
  | None => throw (NotFoundException (ById id))
  | Some identity => ret identity
  end.

Definition findOneByWalletName (wallet : string) (withRelated : bool)
  : M Identity.t :=
  identity <- IdentityRepository.findOneByWalletName wallet withRelated ;;
  match identity with
  | None => throw (NotFoundException (ByText wallet))
  | Some identity => ret identity
  end.

Definition findOneByAddress (address : string) (withRelated : bool)
  : M Identity.t :=
  identity <- IdentityRepository.findOneByAddress address withRelated ;;
  match identity with
  | None => throw (NotFoundException (ByText address))
  | Some identity => ret identity
  end.

(** Lines 74-84.  The result of the last lookup is returned as it is, so
    the result may be [null]. *)
Definition findProfileIdentity (profileId : Z) (withRelated : bool)
  : M (option Identity.t) :=
  profile <- ProfileService.findOne profileId true ;;
  match find (fun p => IdentityType_eqb (Identity.type p) PROFILE)
             (Profile.Identities profile) with
  | None => throw (ModelNotFoundException "Identity")
  | Some identity => IdentityRepository.findOne (Identity.id identity) withRelated
  end.

(** Lines 86-91.  The JSON round trip of a plain record is the record. *)
Definition create (data : IdentityCreateRequest.t) : M Identity.t :=
  validate (RequestValidation.validCreate validation data) ;;;
  let body := data in
  IdentityRepository.create body.

(** [value.toJSON()] on the result of [findProfileIdentity]. *)
Definition toJSON (value : option Identity.t) : M Identity.t :=
  match value with
  | Some identity => ret identity
  | None => throw (TypeError "Cannot read property 'toJSON' of null")
  end.

(** The selection of the master key (lines 104-106 and 161-163). *)
Definition isMasterKey (key : RpcExtKey.t) : bool :=
  String.eqb (RpcExtKey.type key) "Loose"
  && String.eqb (RpcExtKey.key_type key) "Master"
  && String.eqb (RpcExtKey.label key) "Master Key - bip44 derived."
  && String.eqb (RpcExtKey.current_master key) "true".

Definition noMasterKey : Exception :=
  MessageException "Could not find Profile wallets Master key.".

(** Lines 98-137. *)
Definition createMarketIdentityForProfile (profile : Profile.t) : M Identity.t :=
  value <- findProfileIdentity (Profile.id profile) true ;;
  profileIdentity <- toJSON value ;;
  extKeys <- rpc (ExtKeyList (Identity.wallet profileIdentity) true) RExtKeys
    (fun h => CoreRpcService.extKeyList core h (Identity.wallet profileIdentity) true) ;;
  match find isMasterKey extKeys with
  | None => throw noMasterKey
  | Some masterKey =>
    keyInfo <- rpc (ExtKeyInfo (Identity.wallet profileIdentity)
                               (RpcExtKey.evkey masterKey) "4444446'/0'")
                   RExtKeyResult
      (fun h => CoreRpcService.extKeyInfo core h (Identity.wallet profileIdentity)
                  (RpcExtKey.evkey masterKey) "4444446'/0'") ;;
    let walletName := "profiles/" ++ Profile.name profile ++ "/particl-market" in
    marketWallet <- rpc (CreateAndLoadWallet walletName false true) RWallet
      (fun h => CoreRpcService.createAndLoadWallet core h walletName false true) ;;
    extKeyAlt <- rpc (ExtKeyAltVersion (RpcExtKey.evkey masterKey)) RString
      (fun h => CoreRpcService.extKeyAltVersion core h (RpcExtKey.evkey masterKey)) ;;
    extKeyImported <- rpc (ExtKeyImport (RpcWallet.name marketWallet)
                                        (RpcExtKey.evkey masterKey) "master key" true)
                          RExtKeyResult
      (fun h => CoreRpcService.extKeyImport core h (RpcWallet.name marketWallet)
                  (RpcExtKey.evkey masterKey) "master key" true) ;;
    rpc (ExtKeySetMaster (RpcWallet.name marketWallet)
                         (RpcExtKeyResult.id extKeyImported)) (fun _ => RVoid)
      (fun h => CoreRpcService.extKeySetMaster core h (RpcWallet.name marketWallet)
                  (RpcExtKeyResult.id extKeyImported)) ;;;
    marketAccount <- rpc (ExtKeyDeriveAccount (RpcWallet.name marketWallet)
                                              "market account") RExtKeyResult
      (fun h => CoreRpcService.extKeyDeriveAccount core h
                  (RpcWallet.name marketWallet) "market account") ;;
    rpc (ExtKeySetDefaultAccount (RpcWallet.name marketWallet)
                                 (RpcExtKeyResult.account marketAccount))
        (fun _ => RVoid)
      (fun h => CoreRpcService.extKeySetDefaultAccount core h
                  (RpcWallet.name marketWallet)
                  (RpcExtKeyResult.account marketAccount)) ;;;
    address <- rpc (GetNewAddress (RpcWallet.name marketWallet)) RString
      (fun h => CoreRpcService.getNewAddress core h (RpcWallet.name marketWallet)) ;;
    walletInfo <- rpc (GetWalletInfo (RpcWallet.name marketWallet)) RWalletInfo
      (fun h => CoreRpcService.getWalletInfo core h (RpcWallet.name marketWallet)) ;;
    create (IdentityCreateRequest.mk
              (Profile.id profile)
              (RpcWallet.name marketWallet)
              address
              (Some (RpcWalletInfo.hdseedid walletInfo))
              (Some (RpcExtKeyInfo.path (RpcExtKeyResult.key_info keyInfo)))
              None
              None
              MARKET)
  end.

(** Lines 147-183. *)
Definition createProfileIdentity (profile : Profile.t) : M Identity.t :=
  let walletName := "profiles/" ++ Profile.name profile in
  wallet <- rpc (CreateAndLoadWallet walletName false true) RWallet
    (fun h => CoreRpcService.createAndLoadWallet core h walletName false true) ;;
  passphrase <- withRandom 24 (fun rand => createRandom rand 24 true true true true) ;;
  let params := [JsString "new"; JsString passphrase; JsString "english";
                 JsNumber 32; JsBoolean true] in
  mnemonic <- rpc (Mnemonic params) RMnemonic
    (fun h => CoreRpcService.mnemonic core h params) ;;
  rpc (ExtKeyGenesisImport (RpcWallet.name wallet)
                           [RpcMnemonic.mnemonic mnemonic; passphrase])
      (fun _ => RVoid)
    (fun h => CoreRpcService.extKeyGenesisImport core h (RpcWallet.name wallet)
                [RpcMnemonic.mnemonic mnemonic; passphrase]) ;;;
  extKeys <- rpc (ExtKeyList (RpcWallet.name wallet) true) RExtKeys
    (fun h => CoreRpcService.extKeyList core h (RpcWallet.name wallet) true) ;;
  match find isMasterKey extKeys with
  | None => throw noMasterKey
  | Some masterKey =>
    address <- rpc (GetNewAddress (RpcWallet.name wallet)) RString
      (fun h => CoreRpcService.getNewAddress core h (RpcWallet.name wallet)) ;;
    walletInfo <- rpc (GetWalletInfo walletName) RWalletInfo
      (fun h => CoreRpcService.getWalletInfo core h walletName) ;;
    create (IdentityCreateRequest.mk
              (Profile.id profile)
              (RpcWallet.name wallet)
              address
              (Some (RpcWalletInfo.hdseedid walletInfo))
              (Some (RpcExtKey.path masterKey))
              (Some (RpcMnemonic.mnemonic mnemonic))
              (Some passphrase)
              PROFILE)
  end.

(** Lines 186-200.  [identity.Path] is assigned [body.hdseedid]. *)
Definition update (id : Z) (body : IdentityUpdateRequest.t)
  : M (option Identity.t) :=
  validate (RequestValidation.validUpdate validation body) ;;;
  identity <- findOne id false ;;
  let identity :=
    Identity.mk (Identity.id identity) (Identity.profile_id identity)
      (IdentityUpdateRequest.wallet body)
      (IdentityUpdateRequest.address body)
      (IdentityUpdateRequest.hdseedid body)
      (IdentityUpdateRequest.hdseedid body)
      (IdentityUpdateRequest.mnemonic body)
      (IdentityUpdateRequest.passphrase body)
      (IdentityUpdateRequest.type body) in
  IdentityRepository.update id identity.

Definition destroy (id : Z) : M unit :=
  IdentityRepository.destroy id.

End IdentityService.

(** ** Vocabulary of the properties *)

(** The four character classes, by character code and by the punctuation
    set. *)
Definition isUpper (c : ascii) : bool :=
  (65 <=? nat_of_ascii c)%nat && (nat_of_ascii c <=? 90)%nat.

Definition isLower (c : ascii) : bool :=
  (97 <=? nat_of_ascii c)%nat && (nat_of_ascii c <=? 122)%nat.

Definition isDigit (c : ascii) : bool :=
  (48 <=? nat_of_ascii c)%nat && (nat_of_ascii c <=? 57)%nat.

Definition isPunctuation (c : ascii) : bool :=
  existsb (Ascii.eqb c) (spread "~!@#$%^&*()_+-=[]{};:,.<>?").

(** [c] belongs to one of the enabled classes. *)
Definition enabledChar (caps lower numbers unique : bool) (c : ascii) : bool :=
  caps && isUpper c || lower && isLower c || numbers && isDigit c
  || unique && isPunctuation c.

(** The pool of characters [createRandom] draws from. *)
Definition selectedChars (caps lower numbers unique : bool) : list ascii :=
  ((if caps then spread "ABCDEFGHIJKLMNOPQRSTUVWXYZ" else []) ++
   (if lower then spread "abcdefghijklmnopqrstuvwxyz" else []) ++
   (if numbers then spread "0123456789" else []) ++
   (if unique then spread "~!@#$%^&*()_+-=[]{};:,.<>?" else []))%list.

(** A source of draws for the examples. *)
Definition sampleRandom (i n : nat) : nat := ((7 * i + 3) mod n)%nat.

(** ** Sample data for the examples *)

(** Modelled from the spec: the request classes and their validation
    decorators are not under src/.  A request is rejected when a required
    field is missing.  A well-typed request always carries the profile id
    and the role; its wallet name or address is missing when it is the
    empty string. *)
Definition requiredFields : RequestValidation.t :=
  RequestValidation.mk
    (fun r => negb (String.eqb (IdentityCreateRequest.wallet r) "")
              && negb (String.eqb (IdentityCreateRequest.address r) ""))
    (fun r => negb (String.eqb (IdentityUpdateRequest.wallet r) "")
              && negb (String.eqb (IdentityUpdateRequest.address r) "")).

Definition aliceIdentity : Identity.t :=
  Identity.mk 1 7 "profiles/alice" "pZaliceAddress1" (Some "seed-alice")
    (Some "m/44h/44h") (Some "sempre dinamica abete") (Some "s3cret") PROFILE.

Definition alice : Profile.t := Profile.mk 7 "alice" [aliceIdentity].

(** A profile without identities. *)
Definition bob : Profile.t := Profile.mk 8 "bob" [].

(** A profile whose PROFILE identity has no row in the store. *)
Definition carolIdentity : Identity.t :=
  Identity.mk 5 9 "profiles/carol" "pZcarolAddress1" (Some "seed-carol")
    (Some "m/44h/44h") (Some "abaco zuppa") (Some "pw") PROFILE.

Definition carol : Profile.t := Profile.mk 9 "carol" [carolIdentity].

Definition world0 : World := mkWorld [aliceIdentity] [alice; bob; carol] [] 0.

Definition sampleUpdate : IdentityUpdateRequest.t :=
  IdentityUpdateRequest.mk "profiles/alice" "pZaliceAddress2" (Some "seed-2")
    (Some "m/44h/44h/1h") (Some "sempre dinamica abete") (Some "s3cret") PROFILE.

(** ** Runs: vocabulary and tactics *)

(** The master-key rule, as a proposition on the fields of a key. *)
Definition masterKeyRule (key : RpcExtKey.t) : Prop :=
  RpcExtKey.type key = "Loose" /\
  RpcExtKey.key_type key = "Master" /\
  RpcExtKey.label key = "Master Key - bip44 derived." /\
  RpcExtKey.current_master key = "true".

(** The store's create was invoked between [w] and [w']. *)
Definition createInvoked (w w' : World) : Prop :=
  exists body reply, In (RepoCreate body, reply) (events_since w w').

(** The extended-key listing [keys] was returned between [w] and [w']. *)
Definition listingReturned (w w' : World) (keys : list RpcExtKey.t) : Prop :=
  exists wallet, In (ExtKeyList wallet true, RExtKeys keys) (events_since w w').

(** Case analysis on the next answer of a collaborator. *)
Ltac next_answer :=
  match goal with
  | |- context [match ?x with inl _ => _ | inr _ => _ end] =>
      destruct x eqn:?; simpl
  | |- context [match ?x with Some _ => _ | None => _ end] =>
      destruct x eqn:?; simpl
  | |- context [if ?x then _ else _] =>
      destruct x eqn:?; simpl
  end.

Ltac run_events :=
  unfold events_since; simpl; rewrite <- ?app_assoc;
  rewrite ?skipn_app, ?skipn_all, ?Nat.sub_diag; simpl.

Ltac in_events :=
  repeat match goal with
    | H : In _ _ |- _ => simpl in H
    | H : _ \/ _ |- _ => destruct H as [H|H]
    | H : False |- _ => destruct H
    | H : (_, _) = (_, _) |- _ => inversion H; clear H; subst
    end.

Arguments createRandom : simpl never.
Arguments IdentityRepository.nextId : simpl never.
Arguments String.append : simpl never.

(** The name of the operation an event calls. *)
Definition operation (e : Event) : string :=
  match fst e with
  | CreateAndLoadWallet _ _ _ => "createAndLoadWallet"
  | Mnemonic _ => "mnemonic"
  | ExtKeyGenesisImport _ _ => "extKeyGenesisImport"
  | ExtKeyList _ _ => "extKeyList"
  | ExtKeyInfo _ _ _ => "extKeyInfo"
  | ExtKeyAltVersion _ => "extKeyAltVersion"
  | ExtKeyImport _ _ _ _ => "extKeyImport"
  | ExtKeySetMaster _ _ => "extKeySetMaster"
  | ExtKeyDeriveAccount _ _ => "extKeyDeriveAccount"
  | ExtKeySetDefaultAccount _ _ => "extKeySetDefaultAccount"
  | GetNewAddress _ => "getNewAddress"
  | GetWalletInfo _ => "getWalletInfo"
  | ProfileFindOne _ _ => "profileService.findOne"
  | RepoFindAll => "identityRepository.findAll"
  | RepoFindAllByProfileId _ _ => "identityRepository.findAllByProfileId"
  | RepoFindOne _ _ => "identityRepository.findOne"
  | RepoFindOneByWalletName _ _ => "identityRepository.findOneByWalletName"
  | RepoFindOneByAddress _ _ => "identityRepository.findOneByAddress"
  | RepoCreate _ => "identityRepository.create"
  | RepoUpdate _ _ => "identityRepository.update"
  | RepoDestroy _ => "identityRepository.destroy"
  end.

(** The calls of [createProfileIdentity], in the order of the source. *)
Definition profileProtocol : list string :=
  ["createAndLoadWallet"; "mnemonic"; "extKeyGenesisImport"; "extKeyList";
   "getNewAddress"; "getWalletInfo"; "identityRepository.create"].

(** ** Sample wallets for the examples *)

Definition accountKey : RpcExtKey.t :=
  RpcExtKey.mk "Account" "Master" "Default Account" "false" "xparAccountKey"
    "m/44h/44h/0h".

Definition masterKey : RpcExtKey.t :=
  RpcExtKey.mk "Loose" "Master" "Master Key - bip44 derived." "true"
    "xparMasterKey" "m/44h/44h".

(** A wallet that answers every call, whatever was called before.  The
    path it reports for a derived key starts at the root ("m/..."), and the
    alternate version of a key is not the key. *)
Definition sampleCore : CoreRpcService.t :=
  CoreRpcService.mk
    (fun _ name _ _ => inr (RpcWallet.mk name))
    (fun _ _ => inr (RpcMnemonic.mk "sempre dinamica abete"))
    (fun _ _ _ => inr tt)
    (fun _ _ _ => inr [accountKey; masterKey])
    (fun _ _ _ path =>
       inr (RpcExtKeyResult.mk "" "" (RpcExtKeyInfo.mk ("m/" ++ path))))
    (fun _ key => inr ("alt:" ++ key))
    (fun _ _ _ _ _ => inr (RpcExtKeyResult.mk "key-1" "" (RpcExtKeyInfo.mk "")))
    (fun _ _ _ => inr tt)
    (fun _ _ _ => inr (RpcExtKeyResult.mk "" "account-1" (RpcExtKeyInfo.mk "")))
    (fun _ _ _ => inr tt)
    (fun _ wallet => inr ("address of " ++ wallet))
    (fun _ wallet => inr (RpcWalletInfo.mk ("seed of " ++ wallet))).

(** The same wallet, listing no master key. *)
Definition keylessCore : CoreRpcService.t :=
  CoreRpcService.mk
    (CoreRpcService.createAndLoadWallet sampleCore)
    (CoreRpcService.mnemonic sampleCore)
    (CoreRpcService.extKeyGenesisImport sampleCore)
    (fun _ _ _ => inr [accountKey])
    (CoreRpcService.extKeyInfo sampleCore)
    (CoreRpcService.extKeyAltVersion sampleCore)
    (CoreRpcService.extKeyImport sampleCore)
    (CoreRpcService.extKeySetMaster sampleCore)
    (CoreRpcService.extKeyDeriveAccount sampleCore)
    (CoreRpcService.extKeySetDefaultAccount sampleCore)
    (CoreRpcService.getNewAddress sampleCore)
    (CoreRpcService.getWalletInfo sampleCore).

(** A wallet that reports every wallet under the name "wallet.dat" and
    returns an empty mnemonic. *)
Definition terseCore : CoreRpcService.t :=
  CoreRpcService.mk
    (fun _ _ _ _ => inr (RpcWallet.mk "wallet.dat"))
    (fun _ _ => inr (RpcMnemonic.mk ""))
    (CoreRpcService.extKeyGenesisImport sampleCore)
    (CoreRpcService.extKeyList sampleCore)
    (CoreRpcService.extKeyInfo sampleCore)
    (CoreRpcService.extKeyAltVersion sampleCore)
    (CoreRpcService.extKeyImport sampleCore)
    (CoreRpcService.extKeySetMaster sampleCore)
    (CoreRpcService.extKeyDeriveAccount sampleCore)
    (CoreRpcService.extKeySetDefaultAccount sampleCore)
    (CoreRpcService.getNewAddress sampleCore)
    (CoreRpcService.getWalletInfo sampleCore).

Definition dave : Profile.t := Profile.mk 10 "dave" [].

(** ** Further vocabulary and sample data *)

(** The position of the first occurrence of [c] in [l] (the length of [l]
    when there is none). *)
Fixpoint indexOf (c : ascii) (l : list ascii) : nat :=
  match l with
  | [] => 0%nat
  | a :: l' => if Ascii.eqb a c then 0%nat else S (indexOf c l')
  end.

(** The draws that make [createRandom] spell [target] from [pool]. *)
Definition spelling (pool : list ascii) (target : string) (i n : nat) : nat :=
  if (n =? List.length pool)%nat
  then match nth_error (spread target) i with
       | Some c => indexOf c pool
       | None => 0%nat
       end
  else 0%nat.

(** A market identity of alice, and a profile that lists it before the
    profile identity. *)
Definition aliceMarket : Identity.t :=
  Identity.mk 2 7 "profiles/alice/particl-market" "pZaliceAddress9"
    (Some "seed-alice-market") (Some "m/4444446'/0'") None None MARKET.

Definition aliceListed : Profile.t :=
  Profile.mk 7 "alice" [aliceMarket; aliceIdentity].

Definition world1 : World :=
  mkWorld [aliceIdentity; aliceMarket] [aliceListed; bob] [] 0.

Definition sampleCreate : IdentityCreateRequest.t :=
  IdentityCreateRequest.mk 8 "profiles/bob" "pZbobAddress1" (Some "seed-bob")
    (Some "m/44h/44h") (Some "orso nuvola") (Some "pw-bob") PROFILE.

Definition otherUpdate : IdentityUpdateRequest.t :=
  IdentityUpdateRequest.mk "profiles/alice-old" "pZaliceAddress3" None None
    None None MARKET.

(** The calls of [createMarketIdentityForProfile], in the order of the
    source. *)
Definition marketProtocol : list string :=
  ["profileService.findOne"; "identityRepository.findOne"; "extKeyList";
   "extKeyInfo"; "createAndLoadWallet"; "extKeyAltVersion"; "extKeyImport";
   "extKeySetMaster"; "extKeyDeriveAccount"; "extKeySetDefaultAccount";
   "getNewAddress"; "getWalletInfo"; "identityRepository.create"].

(** The event is a call to the wallet. *)
Definition isWalletCall (e : Event) : bool :=
  match fst e with
  | ProfileFindOne _ _ | RepoFindAll | RepoFindAllByProfileId _ _
  | RepoFindOne _ _ | RepoFindOneByWalletName _ _ | RepoFindOneByAddress _ _
  | RepoCreate _ | RepoUpdate _ _ | RepoDestroy _ => false
  | _ => true
  end.



(** * Properties *)

Lemma IdentityType_eqb_eq a b : IdentityType_eqb a b = true <-> a = b.
Proof. destruct a, b; simpl; split; congruence. Qed.

(** ** The passphrase generator *)

Lemma createRandom_unfold rand length caps lower numbers unique :
  createRandom rand length caps lower numbers unique =
  join (map (fun i => nth_error (selectedChars caps lower numbers unique)
                        (rand i (List.length (selectedChars caps lower numbers unique))))
            (seq 0 length)).
Proof. reflexivity. Qed.

Lemma selectedChars_enabled caps lower numbers unique :
  forallb (enabledChar caps lower numbers unique)
          (selectedChars caps lower numbers unique) = true.
Proof. destruct caps, lower, numbers, unique; vm_compute; reflexivity. Qed.

Lemma selectedChars_empty caps lower numbers unique :
  caps || lower || numbers || unique = false ->
  selectedChars caps lower numbers unique = [].
Proof.
  destruct caps, lower, numbers, unique; intros H;
    try discriminate H; reflexivity.
Qed.

Lemma selectedChars_nonempty caps lower numbers unique :
  caps || lower || numbers || unique = true ->
  (0 < List.length (selectedChars caps lower numbers unique))%nat.
Proof.
  destruct caps, lower, numbers, unique; intros H;
    try discriminate H; simpl; lia.
Qed.

(** Every element drawn at an index below the size of the pool yields one
    character of the pool. *)
Lemma join_drawn (pool : list ascii) (rand : nat -> nat -> nat) :
  (0 < List.length pool)%nat -> in_range rand ->
  forall len start,
    let s := join (map (fun i => nth_error pool (rand i (List.length pool)))
                       (seq start len)) in
    String.length s = len /\ Forall (fun c => In c pool) (spread s).
Proof.
  intros Hpos Hrand len.
  induction len as [|len IH]; intros start; simpl.
  - split; [reflexivity | constructor].
  - destruct (nth_error pool (rand start (List.length pool))) as [c|] eqn:E.
    + destruct (IH (S start)) as [Hl Hf]. simpl. split.
      * now rewrite Hl.
      * constructor; [eapply nth_error_In; eassumption | exact Hf].
    + apply nth_error_None in E.
      specialize (Hrand start (List.length pool) Hpos). lia.
Qed.

(** Nothing can be drawn from an empty pool: every element is [undefined]
    and the joined string is empty. *)
Lemma join_nothing (rand : nat -> nat -> nat) len start :
  join (map (fun i => nth_error (@nil ascii) (rand i 0%nat)) (seq start len)) = "".
Proof.
  revert start. induction len as [|len IH]; intros start; simpl.
  - reflexivity.
  - destruct (rand start 0%nat); simpl; apply IH.
Qed.

Lemma sampleRandom_in_range : in_range sampleRandom.
Proof. intros i n Hn. unfold sampleRandom. apply Nat.mod_upper_bound. lia. Qed.

(** C8.  Called with length 24, the passphrase generator returns, for
    every setting of the four character classes with at least one class
    enabled, a string of exactly 24 characters, each of which belongs to
    an enabled class; with all four classes disabled it returns the empty
    string. *)
Theorem createRandom_24 (rand : nat -> nat -> nat)
    (caps lower numbers unique : bool) :
  in_range rand ->
  let s := createRandom rand 24 caps lower numbers unique in
  if caps || lower || numbers || unique
  then String.length s = 24%nat /\
       Forall (fun c => enabledChar caps lower numbers unique c = true) (spread s)
  else s = "".
Proof.
  intros Hrand s. subst s. rewrite createRandom_unfold.
  destruct (caps || lower || numbers || unique) eqn:Hany.
  - destruct (join_drawn (selectedChars caps lower numbers unique) rand
                (selectedChars_nonempty _ _ _ _ Hany) Hrand 24 0) as [Hl Hf].
    split; [exact Hl|].
    pose proof (selectedChars_enabled caps lower numbers unique) as Hen.
    rewrite forallb_forall in Hen.
    eapply Forall_impl; [|exact Hf]. intros c Hc. apply Hen, Hc.
  - rewrite (selectedChars_empty _ _ _ _ Hany). apply join_nothing.
Qed.

Lemma createRandom_24_witness :
  in_range sampleRandom /\
  String.length (createRandom sampleRandom 24 true false true false) = 24%nat /\
  Forall (fun c => enabledChar true false true false c = true)
         (spread (createRandom sampleRandom 24 true false true false)).
Proof.
  split; [exact sampleRandom_in_range|].
  exact (createRandom_24 sampleRandom true false true false sampleRandom_in_range).
Defined.

Example createRandom_sample :
  createRandom sampleRandom 24 true true true true = "DKRYfmt07$_}?GNUbipw3~&=".
Proof. vm_compute. reflexivity. Qed.

(** ** The identity store *)

Lemma find_none_iff {A} (f : A -> bool) (l : list A) :
  find f l = None <-> forall x, In x l -> f x = false.
Proof.
  split; [apply find_none|].
  induction l as [|a l IH]; intros H; simpl; [reflexivity|].
  rewrite (H a (or_introl eq_refl)). apply IH. intros x Hx. apply H. now right.
Qed.

Lemma lookup_id id rows r :
  IdentityRepository.lookup id rows = Some r -> Identity.id r = id.
Proof.
  unfold IdentityRepository.lookup. intros H.
  apply find_some in H. destruct H as [_ H].
  unfold IdentityRepository.hasId in H. now apply Z.eqb_eq in H.
Qed.

Lemma lookup_replace_same id data rows old :
  IdentityRepository.lookup id rows = Some old ->
  IdentityRepository.lookup id (IdentityRepository.replace id data rows)
  = Some (IdentityRepository.withId id data).
Proof.
  unfold IdentityRepository.lookup, IdentityRepository.replace.
  induction rows as [|r rows IH]; simpl; [discriminate|].
  destruct (IdentityRepository.hasId id r) eqn:E; intros H.
  - unfold IdentityRepository.hasId at 1. simpl. now rewrite Z.eqb_refl.
  - rewrite E. apply IH, H.
Qed.

Lemma lookup_replace_other id id' data rows :
  id' <> id ->
  IdentityRepository.lookup id' (IdentityRepository.replace id data rows)
  = IdentityRepository.lookup id' rows.
Proof.
  intros Hne. unfold IdentityRepository.lookup, IdentityRepository.replace.
  induction rows as [|r rows IH]; simpl; [reflexivity|].
  destruct (IdentityRepository.hasId id r) eqn:E.
  - assert (Hr : IdentityRepository.hasId id' r = false).
    { unfold IdentityRepository.hasId in *. apply Z.eqb_eq in E.
      apply Z.eqb_neq. lia. }
    assert (Hd : IdentityRepository.hasId id' (IdentityRepository.withId id data)
                 = false).
    { unfold IdentityRepository.hasId. simpl. apply Z.eqb_neq. lia. }
    rewrite Hr, Hd. apply IH.
  - destruct (IdentityRepository.hasId id' r); [reflexivity | apply IH].
Qed.

(** The rows of the table all carry ids below the next id. *)
Lemma nextId_above rows r :
  In r rows -> Identity.id r < IdentityRepository.nextId rows.
Proof.
  unfold IdentityRepository.nextId.
  induction rows as [|a rows IH]; [simpl; tauto|].
  intros [->|H]; cbn [map fold_right].
  - pose proof (Z.le_max_l (Identity.id r)
                  (fold_right Z.max 0 (map Identity.id rows))). lia.
  - specialize (IH H).
    pose proof (Z.le_max_r (Identity.id a)
                  (fold_right Z.max 0 (map Identity.id rows))). lia.
Qed.

Lemma lookup_nextId rows :
  IdentityRepository.lookup (IdentityRepository.nextId rows) rows = None.
Proof.
  unfold IdentityRepository.lookup. apply find_none_iff. intros r Hr.
  unfold IdentityRepository.hasId. apply Z.eqb_neq.
  pose proof (nextId_above rows r Hr). lia.
Qed.

Lemma lookup_app_new id rows row :
  IdentityRepository.lookup id rows = None ->
  Identity.id row = id ->
  IdentityRepository.lookup id (rows ++ [row]) = Some row.
Proof.
  unfold IdentityRepository.lookup. intros Hn Hid.
  induction rows as [|a rows IH]; simpl in *.
  - unfold IdentityRepository.hasId. rewrite Hid, Z.eqb_refl. reflexivity.
  - destruct (IdentityRepository.hasId id a); [discriminate | apply IH, Hn].
Qed.

(** ** Lookup *)

(** C7.  When the profile exists and none of its identities has the role
    PROFILE, findProfileIdentity fails with ModelNotFoundException
    (role not found); findOne on an id absent from the store fails with
    NotFoundException, which is a different kind of error. *)
Theorem findProfileIdentity_role_not_found
    (profileId : Z) (withRelated : bool) (w : World) (profile : Profile.t) :
  find (fun p => Profile.id p =? profileId) (profiles w) = Some profile ->
  (forall i, In i (Profile.Identities profile) -> Identity.type i <> PROFILE) ->
  fst (findProfileIdentity profileId withRelated w)
    = inl (ModelNotFoundException "Identity") /\
  (forall id related w0,
      IdentityRepository.lookup id (identities w0) = None ->
      fst (findOne id related w0) = inl (NotFoundException (ById id))) /\
  (forall key, ModelNotFoundException "Identity" <> NotFoundException key).
Proof.
  intros Hp Hnone. split; [|split].
  - unfold findProfileIdentity, bind, ProfileService.findOne, perform.
    rewrite Hp. simpl.
    assert (Hf : find (fun p => IdentityType_eqb (Identity.type p) PROFILE)
                      (Profile.Identities profile) = None).
    { apply find_none_iff. intros i Hi. specialize (Hnone i Hi).
      destruct (Identity.type i); [congruence | reflexivity]. }
    rewrite Hf. reflexivity.
  - intros id related w0 Hl.
    unfold findOne, bind, IdentityRepository.findOne, perform. simpl.
    rewrite Hl. reflexivity.
  - intros key. discriminate.
Qed.

(** C9.  When the PROFILE identity found on the profile has no record in
    the store, findProfileIdentity returns the store's null instead of
    raising NotFoundException; findOne, findOneByWalletName and
    findOneByAddress raise it when their lookup finds nothing. *)
Theorem findProfileIdentity_returns_null
    (profileId : Z) (withRelated : bool) (w : World)
    (profile : Profile.t) (identity : Identity.t) :
  find (fun p => Profile.id p =? profileId) (profiles w) = Some profile ->
  find (fun p => IdentityType_eqb (Identity.type p) PROFILE)
       (Profile.Identities profile) = Some identity ->
  IdentityRepository.lookup (Identity.id identity) (identities w) = None ->
  fst (findProfileIdentity profileId withRelated w) = inr None /\
  fst (findOne (Identity.id identity) withRelated w)
    = inl (NotFoundException (ById (Identity.id identity))) /\
  (forall wallet,
      find (fun r => String.eqb (Identity.wallet r) wallet) (identities w) = None ->
      fst (findOneByWalletName wallet withRelated w)
        = inl (NotFoundException (ByText wallet))) /\
  (forall address,
      find (fun r => String.eqb (Identity.address r) address) (identities w) = None ->
      fst (findOneByAddress address withRelated w)
        = inl (NotFoundException (ByText address))).
Proof.
  intros Hp Hi Hl. repeat split.
  - unfold findProfileIdentity, bind, ProfileService.findOne, perform.
    rewrite Hp. simpl. rewrite Hi.
    unfold IdentityRepository.findOne, perform. simpl. rewrite Hl. reflexivity.
  - unfold findOne, bind, IdentityRepository.findOne, perform. simpl.
    rewrite Hl. reflexivity.
  - intros wallet Hw.
    unfold findOneByWalletName, bind, IdentityRepository.findOneByWalletName,
      perform. simpl. rewrite Hw. reflexivity.
  - intros address Ha.
    unfold findOneByAddress, bind, IdentityRepository.findOneByAddress,
      perform. simpl. rewrite Ha. reflexivity.
Qed.

Lemma findProfileIdentity_role_not_found_witness :
  find (fun p => Profile.id p =? 8) (profiles world0) = Some bob /\
  fst (findProfileIdentity 8 true world0) = inl (ModelNotFoundException "Identity").
Proof.
  split; [reflexivity|].
  destruct (findProfileIdentity_role_not_found 8 true world0 bob) as [H _];
    [reflexivity | simpl; tauto | exact H].
Defined.

Lemma findProfileIdentity_returns_null_witness :
  IdentityRepository.lookup 5 (identities world0) = None /\
  fst (findProfileIdentity 9 true world0) = inr None.
Proof.
  split; [reflexivity|].
  destruct (findProfileIdentity_returns_null 9 true world0 carol carolIdentity)
    as [H _]; [reflexivity | reflexivity | reflexivity | exact H].
Defined.

(** ** Update *)

(** What [update] followed by [findOne] returns: the fields of the request,
    with the seed id in the place of the path. *)
Lemma update_then_findOne validation id body w old :
  RequestValidation.validUpdate validation body = true ->
  IdentityRepository.lookup id (identities w) = Some old ->
  exists r w' w'',
    update validation id body w = (inr (Some r), w') /\
    findOne id true w' = (inr r, w'') /\
    r = Identity.mk id (Identity.profile_id old)
          (IdentityUpdateRequest.wallet body)
          (IdentityUpdateRequest.address body)
          (IdentityUpdateRequest.hdseedid body)
          (IdentityUpdateRequest.hdseedid body)
          (IdentityUpdateRequest.mnemonic body)
          (IdentityUpdateRequest.passphrase body)
          (IdentityUpdateRequest.type body).
Proof.
  intros Hv Hl.
  unfold update, validate, bind. rewrite Hv.
  unfold findOne, bind, IdentityRepository.findOne, IdentityRepository.update,
    perform, ret. simpl. rewrite Hl. simpl. rewrite Hl.
  eexists _, _, _. split; [reflexivity|]. simpl.
  rewrite (lookup_replace_same _ _ _ _ Hl). split; reflexivity.
Qed.

(** C2.  The stored derivation path after an update is the seed id of the
    request, not its derivation path: updating identity 1 with seed id
    "seed-2" and path "m/44h/44h/1h" stores the path "seed-2". *)
Theorem update_then_findOne_path_is_seed :
  RequestValidation.validUpdate requiredFields sampleUpdate = true /\
  exists r w' w'',
    update requiredFields 1 sampleUpdate world0 = (inr (Some r), w') /\
    findOne 1 true w' = (inr r, w'') /\
    Identity.path r = Some "seed-2" /\
    IdentityUpdateRequest.path sampleUpdate = Some "m/44h/44h/1h" /\
    Identity.path r <> IdentityUpdateRequest.path sampleUpdate.
Proof.
  split; [reflexivity|].
  destruct (update_then_findOne requiredFields 1 sampleUpdate world0 aliceIdentity
              eq_refl eq_refl) as (r & w' & w'' & Hu & Hf & Hr).
  exists r, w', w''. subst r. repeat split; try assumption. discriminate.
Qed.

(** C10.  An update of an identity present in the store leaves its id and
    its profile id as they were, and leaves every other record as it was;
    a valid request returns the record now stored. *)
Theorem update_keeps_id_and_profile
    (validation : RequestValidation.t) (id : Z)
    (body : IdentityUpdateRequest.t) (w : World) (old : Identity.t) :
  IdentityRepository.lookup id (identities w) = Some old ->
  let w' := snd (update validation id body w) in
  (exists new,
      IdentityRepository.lookup id (identities w') = Some new /\
      Identity.id new = Identity.id old /\
      Identity.profile_id new = Identity.profile_id old /\
      (RequestValidation.validUpdate validation body = true ->
       fst (update validation id body w) = inr (Some new))) /\
  (forall id', id' <> id ->
      IdentityRepository.lookup id' (identities w')
      = IdentityRepository.lookup id' (identities w)).
Proof.
  intros Hl. pose proof (lookup_id _ _ _ Hl) as Hid.
  unfold update, validate, bind.
  destruct (RequestValidation.validUpdate validation body).
  - unfold findOne, bind, IdentityRepository.findOne, IdentityRepository.update,
      perform, ret. simpl. rewrite Hl. simpl. rewrite Hl. simpl. split.
    + eexists. split; [eapply lookup_replace_same; eassumption|].
      simpl. repeat split; congruence.
    + intros id' Hne. now apply lookup_replace_other.
  - simpl. split.
    + exists old. repeat split; [assumption | discriminate].
    + reflexivity.
Qed.

Lemma update_keeps_id_and_profile_witness :
  IdentityRepository.lookup 1 (identities world0) = Some aliceIdentity /\
  exists new,
    IdentityRepository.lookup 1
      (identities (snd (update requiredFields 1 sampleUpdate world0))) = Some new /\
    Identity.id new = 1 /\ Identity.profile_id new = 7.
Proof.
  split; [reflexivity|].
  destruct (update_keeps_id_and_profile requiredFields 1 sampleUpdate world0
              aliceIdentity eq_refl) as [(new & H1 & H2 & H3 & _) _].
  exists new. repeat split; assumption.
Defined.

Lemma isMasterKey_spec key : isMasterKey key = true <-> masterKeyRule key.
Proof.
  unfold isMasterKey, masterKeyRule.
  rewrite !andb_true_iff, !String.eqb_eq. tauto.
Qed.

Lemma find_isMasterKey_none keys :
  (forall key, In key keys -> ~ masterKeyRule key) ->
  find isMasterKey keys = None.
Proof.
  intros H. apply find_none_iff. intros key Hk.
  destruct (isMasterKey key) eqn:E; [|reflexivity].
  apply isMasterKey_spec in E. now apply H in E.
Qed.

Lemma find_isMasterKey_some keys key :
  find isMasterKey keys = Some key -> In key keys /\ masterKeyRule key.
Proof.
  intros H. apply find_some in H. destruct H as [Hin H].
  split; [exact Hin | now apply isMasterKey_spec].
Qed.

(** ** Provisioning: the runs of the two routines *)

Section Runs.

Variable core : CoreRpcService.t.
Variable validation : RequestValidation.t.
Variable random : nat -> nat -> nat.

Lemma createProfileIdentity_no_master_key profile w :
  let run := createProfileIdentity core validation random profile w in
  forall keys,
    listingReturned w (snd run) keys ->
    (forall key, In key keys -> ~ masterKeyRule key) ->
    fst run = inl noMasterKey /\
    identities (snd run) = identities w /\
    ~ createInvoked w (snd run).
Proof.
  intros run keys [wallet Hin] Hnone. subst run.
  apply find_isMasterKey_none in Hnone.
  revert Hin. unfold createInvoked.
  unfold createProfileIdentity, create, validate, IdentityRepository.create,
    withRandom, rpc, perform, bind, ret, throw. simpl.
  repeat next_answer; run_events; intros Hin; in_events;
    try congruence;
    (split; [reflexivity | split; [reflexivity|]]);
    intros (body & reply & Hc); in_events.
Qed.

Lemma createMarketIdentityForProfile_no_master_key profile w :
  let run := createMarketIdentityForProfile core validation profile w in
  forall keys,
    listingReturned w (snd run) keys ->
    (forall key, In key keys -> ~ masterKeyRule key) ->
    fst run = inl noMasterKey /\
    identities (snd run) = identities w /\
    ~ createInvoked w (snd run).
Proof.
  intros run keys [wallet Hin] Hnone. subst run.
  apply find_isMasterKey_none in Hnone.
  revert Hin. unfold createInvoked.
  unfold createMarketIdentityForProfile, findProfileIdentity, toJSON,
    ProfileService.findOne, IdentityRepository.findOne,
    create, validate, IdentityRepository.create,
    rpc, perform, bind, ret, throw. simpl.
  repeat next_answer; run_events; intros Hin; in_events;
    try congruence;
    (split; [reflexivity | split; [reflexivity|]]);
    intros (body & reply & Hc); in_events.
Qed.

(** A successful run of [createProfileIdentity]: the calls it made and
    the record it stored. *)
Lemma createProfileIdentity_success profile w r w' :
  createProfileIdentity core validation random profile w = (inr r, w') ->
  let walletName := "profiles/" ++ Profile.name profile in
  let passphrase :=
    createRandom (fun i => random (random_calls w + i)%nat) 24 true true true true in
  let params := [JsString "new"; JsString passphrase; JsString "english";
                 JsNumber 32; JsBoolean true] in
  exists wallet mnemonic keys masterKey address walletInfo,
    let body :=
      IdentityCreateRequest.mk (Profile.id profile) (RpcWallet.name wallet)
        address (Some (RpcWalletInfo.hdseedid walletInfo))
        (Some (RpcExtKey.path masterKey))
        (Some (RpcMnemonic.mnemonic mnemonic)) (Some passphrase) PROFILE in
    events_since w w' =
      [ (CreateAndLoadWallet walletName false true, RWallet wallet);
        (Mnemonic params, RMnemonic mnemonic);
        (ExtKeyGenesisImport (RpcWallet.name wallet)
           [RpcMnemonic.mnemonic mnemonic; passphrase], RVoid);
        (ExtKeyList (RpcWallet.name wallet) true, RExtKeys keys);
        (GetNewAddress (RpcWallet.name wallet), RString address);
        (GetWalletInfo walletName, RWalletInfo walletInfo);
        (RepoCreate body, RIdentity (Some r)) ] /\
    find isMasterKey keys = Some masterKey /\
    RequestValidation.validCreate validation body = true /\
    r = IdentityRepository.fromRequest
          (IdentityRepository.nextId (identities w)) body /\
    identities w' = (identities w ++ [r])%list.
Proof.
  unfold createProfileIdentity, create, validate, IdentityRepository.create,
    withRandom, rpc, perform, bind, ret, throw. simpl.
  repeat next_answer; intros H; try discriminate H.
  inversion H; subst; clear H.
  eexists _, _, _, _, _, _. split; [run_events; reflexivity|].
  repeat split; eassumption || reflexivity.
Qed.

(** A successful run of [createMarketIdentityForProfile]. *)
Lemma createMarketIdentityForProfile_success profile w r w' :
  createMarketIdentityForProfile core validation profile w = (inr r, w') ->
  let walletName := "profiles/" ++ Profile.name profile ++ "/particl-market" in
  exists found identity profileIdentity keys masterKey keyInfo marketWallet
         extKeyAlt extKeyImported marketAccount address walletInfo,
    let name := RpcWallet.name marketWallet in
    let evkey := RpcExtKey.evkey masterKey in
    let body :=
      IdentityCreateRequest.mk (Profile.id profile) name
        address (Some (RpcWalletInfo.hdseedid walletInfo))
        (Some (RpcExtKeyInfo.path (RpcExtKeyResult.key_info keyInfo)))
        None None MARKET in
    events_since w w' =
      [ (ProfileFindOne (Profile.id profile) true, RProfile found);
        (RepoFindOne (Identity.id identity) true, RIdentity (Some profileIdentity));
        (ExtKeyList (Identity.wallet profileIdentity) true, RExtKeys keys);
        (ExtKeyInfo (Identity.wallet profileIdentity) evkey "4444446'/0'",
         RExtKeyResult keyInfo);
        (CreateAndLoadWallet walletName false true, RWallet marketWallet);
        (ExtKeyAltVersion evkey, RString extKeyAlt);
        (ExtKeyImport name evkey "master key" true, RExtKeyResult extKeyImported);
        (ExtKeySetMaster name (RpcExtKeyResult.id extKeyImported), RVoid);
        (ExtKeyDeriveAccount name "market account", RExtKeyResult marketAccount);
        (ExtKeySetDefaultAccount name (RpcExtKeyResult.account marketAccount),
         RVoid);
        (GetNewAddress name, RString address);
        (GetWalletInfo name, RWalletInfo walletInfo);
        (RepoCreate body, RIdentity (Some r)) ] /\
    find (fun p => Profile.id p =? Profile.id profile) (profiles w) = Some found /\
    find (fun p => IdentityType_eqb (Identity.type p) PROFILE)
         (Profile.Identities found) = Some identity /\
    IdentityRepository.lookup (Identity.id identity) (identities w)
      = Some profileIdentity /\
    find isMasterKey keys = Some masterKey /\
    RequestValidation.validCreate validation body = true /\
    r = IdentityRepository.fromRequest
          (IdentityRepository.nextId (identities w)) body /\
    identities w' = (identities w ++ [r])%list.
Proof.
  unfold createMarketIdentityForProfile, findProfileIdentity, toJSON,
    ProfileService.findOne, IdentityRepository.findOne,
    create, validate, IdentityRepository.create,
    rpc, perform, bind, ret, throw. simpl.
  repeat next_answer; intros H; try discriminate H.
  inversion H; subst; clear H.
  eexists _, _, _, _, _, _, _, _, _, _, _, _.
  split; [run_events; reflexivity|].
  repeat split; eassumption || reflexivity.
Qed.

End Runs.

(** ** Provisioning: the properties *)

(** C1.  When the extended-key listing returned during a run contains no
    key with type "Loose", key type "Master", label "Master Key - bip44
    derived." and current master "true", createProfileIdentity and
    createMarketIdentityForProfile both fail with the MessageException
    "Could not find Profile wallets Master key.", the identity table is as
    it was, and the store's create was not invoked in the run. *)
Theorem no_master_key_no_identity
    (core : CoreRpcService.t) (validation : RequestValidation.t)
    (random : nat -> nat -> nat) (profile : Profile.t) (w : World)
    (keys : list RpcExtKey.t) :
  (forall key, In key keys ->
     ~ (RpcExtKey.type key = "Loose" /\
        RpcExtKey.key_type key = "Master" /\
        RpcExtKey.label key = "Master Key - bip44 derived." /\
        RpcExtKey.current_master key = "true")) ->
  (let run := createProfileIdentity core validation random profile w in
   listingReturned w (snd run) keys ->
   fst run = inl (MessageException "Could not find Profile wallets Master key.") /\
   identities (snd run) = identities w /\
   ~ createInvoked w (snd run)) /\
  (let run := createMarketIdentityForProfile core validation profile w in
   listingReturned w (snd run) keys ->
   fst run = inl (MessageException "Could not find Profile wallets Master key.") /\
   identities (snd run) = identities w /\
   ~ createInvoked w (snd run)).
Proof.
  intros Hnone. split; intros run Hlist.
  - exact (createProfileIdentity_no_master_key core validation random profile w
             keys Hlist Hnone).
  - exact (createMarketIdentityForProfile_no_master_key core validation profile w
             keys Hlist Hnone).
Qed.

Lemma accountKey_not_master :
  forall key, In key [accountKey] ->
    ~ (RpcExtKey.type key = "Loose" /\
       RpcExtKey.key_type key = "Master" /\
       RpcExtKey.label key = "Master Key - bip44 derived." /\
       RpcExtKey.current_master key = "true").
Proof. intros key [<-|[]] [H _]. discriminate H. Qed.

Lemma no_master_key_no_identity_witness :
  (let run := createProfileIdentity keylessCore requiredFields sampleRandom dave world0 in
   listingReturned world0 (snd run) [accountKey] /\
   fst run = inl (MessageException "Could not find Profile wallets Master key.") /\
   identities (snd run) = identities world0) /\
  (let run := createMarketIdentityForProfile keylessCore requiredFields alice world0 in
   listingReturned world0 (snd run) [accountKey] /\
   fst run = inl (MessageException "Could not find Profile wallets Master key.") /\
   identities (snd run) = identities world0).
Proof.
  destruct (no_master_key_no_identity keylessCore requiredFields sampleRandom
              dave world0 [accountKey] accountKey_not_master) as [Hp _].
  destruct (no_master_key_no_identity keylessCore requiredFields sampleRandom
              alice world0 [accountKey] accountKey_not_master) as [_ Hm].
  assert (Lp : listingReturned world0
                 (snd (createProfileIdentity keylessCore requiredFields
                         sampleRandom dave world0)) [accountKey]).
  { exists "profiles/dave". vm_compute. tauto. }
  assert (Lm : listingReturned world0
                 (snd (createMarketIdentityForProfile keylessCore requiredFields
                         alice world0)) [accountKey]).
  { exists "profiles/alice". vm_compute. tauto. }
  split; (split; [assumption|]).
  - destruct (Hp Lp) as (H1 & H2 & _). split; assumption.
  - destruct (Hm Lm) as (H1 & H2 & _). split; assumption.
Defined.

(** In a successful run of [createMarketIdentityForProfile] the key handed
    to [extKeyImport] is the [evkey] of the selected master key, the
    argument of the [extKeyAltVersion] call and not its result. *)
Lemma extKeyImport_key_is_evkey core validation profile w r w' :
  createMarketIdentityForProfile core validation profile w = (inr r, w') ->
  exists keys masterKey extKeyAlt,
    listingReturned w w' keys /\
    find isMasterKey keys = Some masterKey /\
    In (ExtKeyAltVersion (RpcExtKey.evkey masterKey), RString extKeyAlt)
       (events_since w w') /\
    forall wallet key label bip44 reply,
      In (ExtKeyImport wallet key label bip44, reply) (events_since w w') ->
      key = RpcExtKey.evkey masterKey.
Proof.
  intros Hrun.
  destruct (createMarketIdentityForProfile_success core validation profile w r w'
              Hrun)
    as (found & identity & profileIdentity & keys & mk & keyInfo & marketWallet
        & extKeyAlt & extKeyImported & marketAccount & address & walletInfo
        & Hev & _ & _ & _ & Hfind & _).
  exists keys, mk, extKeyAlt. unfold listingReturned. rewrite Hev.
  split; [eexists; simpl; eauto|].
  split; [exact Hfind|].
  split; [simpl; tauto|].
  intros wallet key label bip44 reply Hin. in_events. reflexivity.
Qed.

(** C3.  The key imported into the market wallet is the master key itself,
    not its alternate version: with a wallet whose extKeyAltVersion answers
    "alt:xparMasterKey" for the master key "xparMasterKey", the run
    succeeds and extKeyImport receives "xparMasterKey". *)
Theorem extKeyImport_receives_master_key :
  let run := createMarketIdentityForProfile sampleCore requiredFields alice world0 in
  map fst (events_since world0 (snd run)) =
    [ ProfileFindOne 7 true;
      RepoFindOne 1 true;
      ExtKeyList "profiles/alice" true;
      ExtKeyInfo "profiles/alice" "xparMasterKey" "4444446'/0'";
      CreateAndLoadWallet "profiles/alice/particl-market" false true;
      ExtKeyAltVersion "xparMasterKey";
      ExtKeyImport "profiles/alice/particl-market" "xparMasterKey" "master key" true;
      ExtKeySetMaster "profiles/alice/particl-market" "key-1";
      ExtKeyDeriveAccount "profiles/alice/particl-market" "market account";
      ExtKeySetDefaultAccount "profiles/alice/particl-market" "account-1";
      GetNewAddress "profiles/alice/particl-market";
      GetWalletInfo "profiles/alice/particl-market";
      RepoCreate
        (IdentityCreateRequest.mk 7 "profiles/alice/particl-market"
           "address of profiles/alice/particl-market"
           (Some "seed of profiles/alice/particl-market")
           (Some "m/4444446'/0'") None None MARKET) ] /\
  In (ExtKeyAltVersion "xparMasterKey", RString "alt:xparMasterKey")
     (events_since world0 (snd run)) /\
  (exists r, fst run = inr r) /\
  "xparMasterKey" <> "alt:xparMasterKey".
Proof.
  split; [vm_compute; reflexivity|].
  split; [vm_compute; tauto|].
  split; [eexists; vm_compute; reflexivity | discriminate].
Qed.

(** A record just created is the one stored under its id. *)
Lemma lookup_created rows body :
  let r := IdentityRepository.fromRequest (IdentityRepository.nextId rows) body in
  IdentityRepository.lookup (Identity.id r) (rows ++ [r]) = Some r.
Proof.
  intros r. apply lookup_app_new; [|reflexivity]. apply lookup_nextId.
Qed.

(** C4 as stated fails: the stored path is the one the wallet reports.
    With a wallet that reports derived keys by their path from the root,
    the run succeeds and stores "m/4444446'/0'", while the request carried
    "4444446'/0'". *)
Lemma market_path_is_the_reported_one :
  exists r w',
    createMarketIdentityForProfile sampleCore requiredFields alice world0
      = (inr r, w') /\
    In (ExtKeyInfo "profiles/alice" "xparMasterKey" "4444446'/0'",
        RExtKeyResult (RpcExtKeyResult.mk "" "" (RpcExtKeyInfo.mk "m/4444446'/0'")))
       (events_since world0 w') /\
    Identity.path r = Some "m/4444446'/0'" /\
    Identity.path r <> Some "4444446'/0'".
Proof.
  eexists _, _. split; [vm_compute; reflexivity|].
  split; [vm_compute; tauto|].
  split; [reflexivity | discriminate].
Qed.

(** C4, amended.  A successful createMarketIdentityForProfile returns a
    record with role MARKET, no mnemonic and no passphrase, owned by the
    profile, whose derivation path is the path reported in the wallet's
    answer to the extKeyInfo request made with the fixed sub-path
    "4444446'/0'"; that record is the one stored under its id. *)
Theorem createMarketIdentityForProfile_record
    (core : CoreRpcService.t) (validation : RequestValidation.t)
    (profile : Profile.t) (w w' : World) (r : Identity.t) :
  createMarketIdentityForProfile core validation profile w = (inr r, w') ->
  Identity.type r = MARKET /\
  Identity.mnemonic r = None /\
  Identity.passphrase r = None /\
  Identity.profile_id r = Profile.id profile /\
  (exists wallet key keyInfo,
      In (ExtKeyInfo wallet key "4444446'/0'", RExtKeyResult keyInfo)
         (events_since w w') /\
      Identity.path r
        = Some (RpcExtKeyInfo.path (RpcExtKeyResult.key_info keyInfo))) /\
  IdentityRepository.lookup (Identity.id r) (identities w') = Some r /\
  (exists body, In (RepoCreate body, RIdentity (Some r)) (events_since w w')).
Proof.
  intros Hrun.
  destruct (createMarketIdentityForProfile_success core validation profile w r w'
              Hrun)
    as (found & identity & profileIdentity & keys & mk & keyInfo & marketWallet
        & extKeyAlt & extKeyImported & marketAccount & address & walletInfo
        & Hev & _ & _ & _ & _ & _ & Hr & Hrows).
  rewrite Hev, Hrows. subst r.
  repeat split; try reflexivity.
  - eexists _, _, keyInfo. split; [simpl; tauto | reflexivity].
  - apply lookup_created.
  - eexists. simpl. do 12 right. left. reflexivity.
Qed.

Lemma createMarketIdentityForProfile_record_witness :
  exists r w',
    createMarketIdentityForProfile sampleCore requiredFields alice world0
      = (inr r, w') /\
    Identity.type r = MARKET /\
    Identity.mnemonic r = None /\
    Identity.passphrase r = None /\
    IdentityRepository.lookup (Identity.id r) (identities w') = Some r.
Proof.
  eexists _, _. split; [vm_compute; reflexivity|].
  edestruct (createMarketIdentityForProfile_record sampleCore requiredFields
               alice world0) as (H1 & H2 & H3 & _ & _ & H6 & _);
    [vm_compute; reflexivity|].
  repeat split; assumption.
Defined.

Lemma createRandom_default_length (rand : nat -> nat -> nat) :
  in_range rand ->
  String.length (createRandom rand 24 true true true true) = 24%nat.
Proof.
  intros Hrand. rewrite createRandom_unfold.
  apply (join_drawn (selectedChars true true true true) rand); [simpl; lia|].
  exact Hrand.
Qed.

(** C5 as stated fails: the wallet name and the mnemonic of the record are
    the ones the wallet returns.  With a wallet that reports every wallet
    as "wallet.dat" and returns an empty mnemonic, the run for the profile
    "dave" succeeds and stores that name and an empty mnemonic. *)
Lemma profile_record_follows_the_wallet :
  exists r w',
    createProfileIdentity terseCore requiredFields sampleRandom dave world0
      = (inr r, w') /\
    Identity.type r = PROFILE /\
    Identity.mnemonic r = Some "" /\
    Identity.wallet r = "wallet.dat" /\
    Identity.wallet r <> "profiles/dave".
Proof.
  eexists _, _. split; [vm_compute; reflexivity|].
  repeat split; discriminate.
Qed.

(** C5, amended.  A successful createProfileIdentity returns a record with
    role PROFILE, owned by the profile, whose wallet name is the name
    reported by the wallet in answer to the request to create the wallet
    "profiles/" followed by the profile's name, whose mnemonic is the one
    returned by the mnemonic call, and whose passphrase is the generated
    one, of 24 characters; that record is the one stored under its id. *)
Theorem createProfileIdentity_record
    (core : CoreRpcService.t) (validation : RequestValidation.t)
    (random : nat -> nat -> nat) (profile : Profile.t) (w w' : World)
    (r : Identity.t) :
  in_range random ->
  createProfileIdentity core validation random profile w = (inr r, w') ->
  exists wallet mnemonic passphrase,
    In (CreateAndLoadWallet ("profiles/" ++ Profile.name profile) false true,
        RWallet wallet) (events_since w w') /\
    In (Mnemonic [JsString "new"; JsString passphrase; JsString "english";
                  JsNumber 32; JsBoolean true], RMnemonic mnemonic)
       (events_since w w') /\
    Identity.type r = PROFILE /\
    Identity.profile_id r = Profile.id profile /\
    Identity.wallet r = RpcWallet.name wallet /\
    Identity.mnemonic r = Some (RpcMnemonic.mnemonic mnemonic) /\
    Identity.passphrase r = Some passphrase /\
    String.length passphrase = 24%nat /\
    IdentityRepository.lookup (Identity.id r) (identities w') = Some r /\
    (exists body, In (RepoCreate body, RIdentity (Some r)) (events_since w w')).
Proof.
  intros Hrand Hrun.
  destruct (createProfileIdentity_success core validation random profile w r w'
              Hrun)
    as (wallet & mnemonic & keys & mk & address & walletInfo
        & Hev & _ & _ & Hr & Hrows).
  exists wallet, mnemonic,
    (createRandom (fun i => random (random_calls w + i)%nat) 24 true true true true).
  rewrite Hev, Hrows. subst r.
  repeat split; try reflexivity.
  - simpl. tauto.
  - simpl. tauto.
  - apply createRandom_default_length. intros i n Hn. apply Hrand, Hn.
  - apply lookup_created.
  - eexists. simpl. do 6 right. left. reflexivity.
Qed.

Lemma createProfileIdentity_record_witness :
  in_range sampleRandom /\
  exists r w',
    createProfileIdentity sampleCore requiredFields sampleRandom dave world0
      = (inr r, w') /\
    Identity.type r = PROFILE /\
    Identity.profile_id r = 10 /\
    IdentityRepository.lookup (Identity.id r) (identities w') = Some r.
Proof.
  split; [exact sampleRandom_in_range|].
  eexists _, _. split; [vm_compute; reflexivity|].
  edestruct (createProfileIdentity_record sampleCore requiredFields sampleRandom
               dave world0)
    as (wallet & mnemonic & passphrase & _ & _ & Ht & Hp & _ & _ & _ & _ & Hl & _);
    [exact sampleRandom_in_range | vm_compute; reflexivity|].
  repeat split; assumption.
Defined.

(** C6 as stated fails: a run that finds no master key stops after
    extKeyList, and the store's create is not invoked. *)
Lemma run_stops_without_master_key :
  let run := createProfileIdentity keylessCore requiredFields sampleRandom
               dave world0 in
  fst run = inl (MessageException "Could not find Profile wallets Master key.") /\
  map operation (events_since world0 (snd run)) =
    ["createAndLoadWallet"; "mnemonic"; "extKeyGenesisImport"; "extKeyList"] /\
  map operation (events_since world0 (snd run)) <> profileProtocol /\
  ~ createInvoked world0 (snd run).
Proof.
  split; [vm_compute; reflexivity|].
  split; [vm_compute; reflexivity|].
  split; [vm_compute; discriminate|].
  intros (body & reply & H). vm_compute in H.
  repeat (destruct H as [H|H]; [discriminate H|]). exact H.
Qed.

(** C6, amended.  Every successful run of createProfileIdentity calls, in
    this order and once each, createAndLoadWallet, mnemonic,
    extKeyGenesisImport, extKeyList, getNewAddress, getWalletInfo and then
    the store's create; a run that fails makes an initial part of these
    calls in the same order.  In every run the mnemonic call, when made,
    has the parameters ['new', the generated passphrase, 'english', 32,
    true]. *)
Theorem createProfileIdentity_call_order
    (core : CoreRpcService.t) (validation : RequestValidation.t)
    (random : nat -> nat -> nat) (profile : Profile.t) (w : World) :
  let run := createProfileIdentity core validation random profile w in
  let calls := events_since w (snd run) in
  let passphrase :=
    createRandom (fun i => random (random_calls w + i)%nat) 24 true true true true in
  (exists rest, (map operation calls ++ rest)%list = profileProtocol) /\
  (forall params reply,
      In (Mnemonic params, reply) calls ->
      params = [JsString "new"; JsString passphrase; JsString "english";
                JsNumber 32; JsBoolean true]) /\
  (forall r, fst run = inr r -> map operation calls = profileProtocol).
Proof.
  unfold createProfileIdentity, create, validate, IdentityRepository.create,
    withRandom, rpc, perform, bind, ret, throw. simpl.
  repeat next_answer; run_events;
    (split; [eexists; reflexivity | split]);
    try (intros params reply Hin; in_events; reflexivity);
    intros r Hr; try discriminate Hr; reflexivity.
Qed.

Lemma createProfileIdentity_call_order_witness :
  let run := createProfileIdentity sampleCore requiredFields sampleRandom
               dave world0 in
  (exists r, fst run = inr r) /\
  map operation (events_since world0 (snd run)) = profileProtocol.
Proof.
  destruct (createProfileIdentity_call_order sampleCore requiredFields
              sampleRandom dave world0) as (_ & _ & H).
  split; [eexists; vm_compute; reflexivity|].
  eapply H. vm_compute. reflexivity.
Defined.

(** * Further properties *)

(** ** The passphrase generator, at any length *)

Lemma isUpper_pool c :
  isUpper c = existsb (Ascii.eqb c) (spread "ABCDEFGHIJKLMNOPQRSTUVWXYZ").
Proof. destruct c as [[] [] [] [] [] [] [] []]; vm_compute; reflexivity. Qed.

Lemma isLower_pool c :
  isLower c = existsb (Ascii.eqb c) (spread "abcdefghijklmnopqrstuvwxyz").
Proof. destruct c as [[] [] [] [] [] [] [] []]; vm_compute; reflexivity. Qed.

Lemma isDigit_pool c :
  isDigit c = existsb (Ascii.eqb c) (spread "0123456789").
Proof. destruct c as [[] [] [] [] [] [] [] []]; vm_compute; reflexivity. Qed.

(** The pool holds the characters of the enabled classes and no other. *)
Lemma enabledChar_pool caps lower numbers unique c :
  enabledChar caps lower numbers unique c
  = existsb (Ascii.eqb c) (selectedChars caps lower numbers unique).
Proof.
  unfold enabledChar, selectedChars.
  rewrite isUpper_pool, isLower_pool, isDigit_pool. unfold isPunctuation.
  destruct caps, lower, numbers, unique; cbv iota;
    rewrite !existsb_app; cbn [existsb andb orb];
    rewrite ?orb_false_r, ?orb_assoc; reflexivity.
Qed.

Lemma enabledChar_in_pool caps lower numbers unique c :
  enabledChar caps lower numbers unique c = true <->
  In c (selectedChars caps lower numbers unique).
Proof.
  rewrite enabledChar_pool, existsb_exists. split.
  - intros (x & Hx & Heq). apply Ascii.eqb_eq in Heq. now subst.
  - intros H. exists c. split; [exact H | apply Ascii.eqb_refl].
Qed.

Lemma indexOf_found c l :
  In c l -> nth_error l (indexOf c l) = Some c /\ (indexOf c l < List.length l)%nat.
Proof.
  induction l as [|a l IH]; simpl; [tauto|].
  intros H. destruct (Ascii.eqb a c) eqn:E.
  - apply Ascii.eqb_eq in E. subst. simpl. split; [reflexivity | lia].
  - destruct H as [H|H]; [subst; rewrite Ascii.eqb_refl in E; discriminate|].
    destruct (IH H) as [H1 H2]. simpl. split; [exact H1 | lia].
Qed.

Lemma length_spread s : List.length (spread s) = String.length s.
Proof. induction s as [|c s IH]; simpl; [reflexivity | now rewrite IH]. Qed.

Lemma join_spelled (pool : list ascii) (f : nat -> nat) (target : list ascii) :
  forall start,
    (forall j c, nth_error target j = Some c ->
                 nth_error pool (f (start + j)%nat) = Some c) ->
    join (map (fun i => nth_error pool (f i)) (seq start (List.length target)))
    = string_of_list_ascii target.
Proof.
  induction target as [|c target IH]; intros start H; simpl; [reflexivity|].
  pose proof (H 0%nat c eq_refl) as H0. rewrite Nat.add_0_r in H0. rewrite H0.
  f_equal. apply IH. intros j c' Hj.
  specialize (H (S j) c' Hj). now rewrite Nat.add_succ_r in H.
Qed.



(** X2.  Every string made of characters of the enabled classes is a
    possible result: there are draws, each below the size of the pool, for
    which the generator called with the length of the string returns it. *)
Theorem createRandom_reaches (target : string)
    (caps lower numbers unique : bool) :
  Forall (fun c => enabledChar caps lower numbers unique c = true)
         (spread target) ->
  exists rand,
    in_range rand /\
    createRandom rand (String.length target) caps lower numbers unique = target.
Proof.
  intros Hall.
  set (pool := selectedChars caps lower numbers unique).
  exists (spelling pool target). split.
  - intros i n Hn. unfold spelling.
    destruct (n =? List.length pool)%nat eqn:E; [|exact Hn].
    apply Nat.eqb_eq in E. subst n.
    destruct (nth_error (spread target) i) as [c|] eqn:Hc; [|exact Hn].
    apply nth_error_In in Hc. rewrite Forall_forall in Hall.
    apply Hall, enabledChar_in_pool in Hc. now apply indexOf_found.
  - rewrite createRandom_unfold. fold pool.
    rewrite <- (length_spread target).
    transitivity (string_of_list_ascii (spread target));
      [|apply string_of_list_ascii_of_string].
    apply (join_spelled pool (fun i => spelling pool target i (List.length pool))
             (spread target) 0).
    intros j c Hj. simpl. unfold spelling. rewrite Nat.eqb_refl, Hj.
    apply nth_error_In in Hj. rewrite Forall_forall in Hall.
    apply Hall, enabledChar_in_pool in Hj. now apply indexOf_found.
Qed.

Lemma createRandom_reaches_witness :
  exists rand,
    in_range rand /\ createRandom rand 6 true false true true = "P4RT!C".
Proof.
  apply (createRandom_reaches "P4RT!C" true false true true).
  repeat constructor.
Defined.

(** ** Lookups *)

(** X3.  findOne never changes the identity table and makes one call to
    the repository; a record it returns is a record of the table with the
    requested id; it fails, with NotFoundException carrying the id, exactly
    when no record of the table has that id, and fails in no other way. *)
Theorem findOne_spec (id : Z) (withRelated : bool) (w : World) :
  let run := findOne id withRelated w in
  identities (snd run) = identities w /\
  List.length (events_since w (snd run)) = 1%nat /\
  (forall r, fst run = inr r -> In r (identities w) /\ Identity.id r = id) /\
  (forall e, fst run = inl e ->
     e = NotFoundException (ById id) /\
     forall r, In r (identities w) -> Identity.id r <> id) /\
  ((forall r, In r (identities w) -> Identity.id r <> id) ->
   fst run = inl (NotFoundException (ById id))).
Proof.
  unfold findOne, bind, IdentityRepository.findOne, perform, ret, throw. simpl.
  destruct (IdentityRepository.lookup id (identities w)) as [r|] eqn:E; simpl.
  - split; [reflexivity|]. split; [run_events; reflexivity|].
    unfold IdentityRepository.lookup in E. apply find_some in E.
    destruct E as [Hin Hid]. apply Z.eqb_eq in Hid.
    split; [intros r' H; inversion H; subst; tauto|].
    split; [intros e H; discriminate H|].
    intros Hno. destruct (Hno r Hin Hid).
  - split; [reflexivity|]. split; [run_events; reflexivity|].
    split; [intros r H; discriminate H|].
    unfold IdentityRepository.lookup in E.
    pose proof (proj1 (find_none_iff _ _) E) as Hnone.
    split; [|reflexivity].
    intros e H. inversion H; subst. split; [reflexivity|].
    intros r Hr. specialize (Hnone r Hr).
    unfold IdentityRepository.hasId in Hnone. now apply Z.eqb_neq in Hnone.
Qed.

(** X4.  findOneByWalletName never changes the identity table; a record it
    returns is a record of the table with the requested wallet name; it
    fails, with NotFoundException carrying the wallet name, exactly when no
    record has that wallet name. *)
Theorem findOneByWalletName_spec (wallet : string) (withRelated : bool)
    (w : World) :
  let run := findOneByWalletName wallet withRelated w in
  identities (snd run) = identities w /\
  (forall r, fst run = inr r -> In r (identities w) /\ Identity.wallet r = wallet) /\
  (forall e, fst run = inl e ->
     e = NotFoundException (ByText wallet) /\
     forall r, In r (identities w) -> Identity.wallet r <> wallet) /\
  ((forall r, In r (identities w) -> Identity.wallet r <> wallet) ->
   fst run = inl (NotFoundException (ByText wallet))).
Proof.
  unfold findOneByWalletName, bind, IdentityRepository.findOneByWalletName,
    perform, ret, throw. simpl.
  destruct (find (fun r => String.eqb (Identity.wallet r) wallet) (identities w))
    as [r|] eqn:E; simpl.
  - split; [reflexivity|]. apply find_some in E.
    destruct E as [Hin Hw]. apply String.eqb_eq in Hw.
    split; [intros r' H; inversion H; subst; tauto|].
    split; [intros e H; discriminate H|].
    intros Hno. destruct (Hno r Hin Hw).
  - split; [reflexivity|]. split; [intros r H; discriminate H|].
    pose proof (proj1 (find_none_iff _ _) E) as Hnone.
    split; [|reflexivity].
    intros e H. inversion H; subst. split; [reflexivity|].
    intros r Hr. specialize (Hnone r Hr). now apply String.eqb_neq in Hnone.
Qed.

(** X5.  findOneByAddress never changes the identity table; a record it
    returns is a record of the table with the requested address; it fails,
    with NotFoundException carrying the address, exactly when no record has
    that address. *)
Theorem findOneByAddress_spec (address : string) (withRelated : bool)
    (w : World) :
  let run := findOneByAddress address withRelated w in
  identities (snd run) = identities w /\
  (forall r, fst run = inr r -> In r (identities w) /\ Identity.address r = address) /\
  (forall e, fst run = inl e ->
     e = NotFoundException (ByText address) /\
     forall r, In r (identities w) -> Identity.address r <> address) /\
  ((forall r, In r (identities w) -> Identity.address r <> address) ->
   fst run = inl (NotFoundException (ByText address))).
Proof.
  unfold findOneByAddress, bind, IdentityRepository.findOneByAddress,
    perform, ret, throw. simpl.
  destruct (find (fun r => String.eqb (Identity.address r) address) (identities w))
    as [r|] eqn:E; simpl.
  - split; [reflexivity|]. apply find_some in E.
    destruct E as [Hin Hw]. apply String.eqb_eq in Hw.
    split; [intros r' H; inversion H; subst; tauto|].
    split; [intros e H; discriminate H|].
    intros Hno. destruct (Hno r Hin Hw).
  - split; [reflexivity|]. split; [intros r H; discriminate H|].
    pose proof (proj1 (find_none_iff _ _) E) as Hnone.
    split; [|reflexivity].
    intros e H. inversion H; subst. split; [reflexivity|].
    intros r Hr. specialize (Hnone r Hr). now apply String.eqb_neq in Hnone.
Qed.

Lemma find_skips {A} (f : A -> bool) (before : list A) (x : A) (after : list A) :
  (forall y, In y before -> f y = false) -> f x = true ->
  find f (before ++ x :: after) = Some x.
Proof.
  intros Hb Hx. induction before as [|b before IH]; simpl.
  - now rewrite Hx.
  - rewrite (Hb b (or_introl eq_refl)). apply IH.
    intros y Hy. apply Hb. now right.
Qed.

(** X6.  When the identities attached to the profile are some MARKET
    identities followed by a PROFILE identity, findProfileIdentity skips
    the MARKET ones and returns the record the store holds under the id of
    that first PROFILE identity, whatever follows it in the list.  It asks
    the profile service with related data whatever its own flag is, hands
    its flag to the repository, and leaves the identity table unchanged. *)
Theorem findProfileIdentity_first_profile_identity
    (profileId : Z) (withRelated : bool) (w : World) (profile : Profile.t)
    (markets : list Identity.t) (identity : Identity.t)
    (others : list Identity.t) (stored : Identity.t) :
  find (fun p => Profile.id p =? profileId) (profiles w) = Some profile ->
  Profile.Identities profile = (markets ++ identity :: others)%list ->
  (forall m, In m markets -> Identity.type m = MARKET) ->
  Identity.type identity = PROFILE ->
  IdentityRepository.lookup (Identity.id identity) (identities w) = Some stored ->
  let run := findProfileIdentity profileId withRelated w in
  fst run = inr (Some stored) /\
  events_since w (snd run) =
    [ (ProfileFindOne profileId true, RProfile profile);
      (RepoFindOne (Identity.id identity) withRelated, RIdentity (Some stored)) ] /\
  identities (snd run) = identities w.
Proof.
  intros Hp Hids Hm Ht Hl.
  unfold findProfileIdentity, bind, ProfileService.findOne,
    IdentityRepository.findOne, perform, throw. rewrite Hp. simpl.
  rewrite Hids.
  rewrite (find_skips _ markets identity others).
  - simpl. rewrite Hl. simpl. split; [reflexivity|].
    split; [run_events; reflexivity | reflexivity].
  - intros m Hin. now rewrite (Hm m Hin).
  - now rewrite Ht.
Qed.

Lemma findProfileIdentity_first_profile_identity_witness :
  fst (findProfileIdentity 7 false world1) = inr (Some aliceIdentity).
Proof.
  refine (proj1 (findProfileIdentity_first_profile_identity 7 false world1
                   aliceListed [aliceMarket] aliceIdentity [] aliceIdentity
                   eq_refl eq_refl _ eq_refl eq_refl)).
  intros m [<-|[]]. reflexivity.
Defined.

(** ** Create and update *)

Lemma lookup_app_old id rows row r :
  IdentityRepository.lookup id rows = Some r ->
  IdentityRepository.lookup id (rows ++ [row]) = Some r.
Proof.
  unfold IdentityRepository.lookup. intros H.
  induction rows as [|a rows IH]; simpl in *; [discriminate|].
  destruct (IdentityRepository.hasId id a); [exact H | apply IH, H].
Qed.

Lemma replace_replace id d1 d2 rows :
  IdentityRepository.replace id d2 (IdentityRepository.replace id d1 rows)
  = IdentityRepository.replace id d2 rows.
Proof.
  unfold IdentityRepository.replace. rewrite map_map. apply map_ext.
  intros r. destruct (IdentityRepository.hasId id r) eqn:E.
  - unfold IdentityRepository.hasId at 1. simpl. now rewrite Z.eqb_refl.
  - now rewrite E.
Qed.

(** X7.  A request accepted by the validation is stored as it is under an
    id no record had before: create returns the record made of the fields
    of the request and that id, findOne on that id then returns this
    record, and every record found before is still found. *)
Theorem create_then_findOne (validation : RequestValidation.t)
    (data : IdentityCreateRequest.t) (w : World) :
  RequestValidation.validCreate validation data = true ->
  exists r w',
    create validation data w = (inr r, w') /\
    IdentityRepository.lookup (Identity.id r) (identities w) = None /\
    r = Identity.mk (Identity.id r)
          (IdentityCreateRequest.profile_id data)
          (IdentityCreateRequest.wallet data)
          (IdentityCreateRequest.address data)
          (IdentityCreateRequest.hdseedid data)
          (IdentityCreateRequest.path data)
          (IdentityCreateRequest.mnemonic data)
          (IdentityCreateRequest.passphrase data)
          (IdentityCreateRequest.type data) /\
    (forall related, fst (findOne (Identity.id r) related w') = inr r) /\
    (forall id old related,
        fst (findOne id related w) = inr old ->
        fst (findOne id related w') = inr old).
Proof.
  intros Hv. unfold create, validate, bind. rewrite Hv.
  unfold IdentityRepository.create, perform, ret. simpl.
  eexists _, _. split; [reflexivity|]. simpl.
  split; [apply lookup_nextId|]. split; [reflexivity|]. split.
  - intros related.
    pose proof (lookup_created (identities w) data) as Hc. simpl in Hc.
    unfold findOne, bind, IdentityRepository.findOne, perform, ret. simpl.
    rewrite Hc. reflexivity.
  - intros id old related.
    unfold findOne, bind, IdentityRepository.findOne, perform, ret, throw. simpl.
    destruct (IdentityRepository.lookup id (identities w)) as [r0|] eqn:E;
      simpl; intros H; [|discriminate H].
    rewrite (lookup_app_old _ _ _ _ E). exact H.
Qed.

Lemma create_then_findOne_witness :
  RequestValidation.validCreate requiredFields sampleCreate = true /\
  exists r w',
    create requiredFields sampleCreate world0 = (inr r, w') /\
    fst (findOne (Identity.id r) true w') = inr r.
Proof.
  split; [reflexivity|].
  destruct (create_then_findOne requiredFields sampleCreate world0 eq_refl)
    as (r & w' & Hc & _ & _ & Hf & _).
  exists r, w'. split; [exact Hc | apply Hf].
Defined.

(** X8.  update never creates a record: when no record has the id, the
    run fails, with NotFoundException carrying the id if the request is
    accepted by the validation, the repository's update is not called and
    the identity table is unchanged. *)
Theorem update_missing_id (validation : RequestValidation.t) (id : Z)
    (body : IdentityUpdateRequest.t) (w : World) :
  IdentityRepository.lookup id (identities w) = None ->
  let run := update validation id body w in
  (exists e, fst run = inl e) /\
  (RequestValidation.validUpdate validation body = true ->
   fst run = inl (NotFoundException (ById id))) /\
  identities (snd run) = identities w /\
  (forall id' data reply,
      ~ In (RepoUpdate id' data, reply) (events_since w (snd run))).
Proof.
  intros Hl. unfold update, validate, bind.
  destruct (RequestValidation.validUpdate validation body).
  - unfold findOne, bind, IdentityRepository.findOne, perform, ret, throw.
    simpl. rewrite Hl. simpl.
    split; [eexists; reflexivity|]. split; [reflexivity|].
    split; [reflexivity|]. run_events. intros id' data reply H. in_events.
  - simpl. split; [eexists; reflexivity|]. split; [discriminate|].
    split; [reflexivity|]. run_events. intros id' data reply H. in_events.
Qed.

Lemma update_missing_id_witness :
  IdentityRepository.lookup 4 (identities world0) = None /\
  fst (update requiredFields 4 sampleUpdate world0)
    = inl (NotFoundException (ById 4)) /\
  identities (snd (update requiredFields 4 sampleUpdate world0))
    = identities world0.
Proof.
  split; [reflexivity|].
  destruct (update_missing_id requiredFields 4 sampleUpdate world0 eq_refl)
    as (_ & H1 & H2 & _).
  split; [apply H1; reflexivity | exact H2].
Defined.

(** X9.  The last update wins: after two accepted updates of a record the
    identity table, and the record returned, are what the second update
    alone gives; nothing of the first request is left. *)
Theorem update_last_writer_wins (validation : RequestValidation.t) (id : Z)
    (first second : IdentityUpdateRequest.t) (w : World) (old : Identity.t) :
  IdentityRepository.lookup id (identities w) = Some old ->
  RequestValidation.validUpdate validation first = true ->
  RequestValidation.validUpdate validation second = true ->
  let once := update validation id second w in
  let twice := update validation id second (snd (update validation id first w)) in
  fst twice = fst once /\
  identities (snd twice) = identities (snd once) /\
  exists r, fst once = inr (Some r).
Proof.
  intros Hl H1 H2. pose proof (lookup_id _ _ _ Hl) as Hid.
  unfold update, validate, bind. rewrite H1, H2.
  unfold findOne, bind, IdentityRepository.findOne, IdentityRepository.update,
    perform, ret. simpl. rewrite Hl. simpl. rewrite Hl. simpl.
  rewrite (lookup_replace_same _ _ _ _ Hl). simpl.
  rewrite (lookup_replace_same _ _ _ _ Hl). simpl.
  rewrite replace_replace. rewrite Hid.
  split; [reflexivity|]. split; [reflexivity|]. eexists. reflexivity.
Qed.

Lemma update_last_writer_wins_witness :
  IdentityRepository.lookup 1 (identities world0) = Some aliceIdentity /\
  identities (snd (update requiredFields 1 sampleUpdate
                     (snd (update requiredFields 1 otherUpdate world0))))
  = identities (snd (update requiredFields 1 sampleUpdate world0)).
Proof.
  split; [reflexivity|].
  exact (proj1 (proj2 (update_last_writer_wins requiredFields 1 otherUpdate
                         sampleUpdate world0 aliceIdentity
                         eq_refl eq_refl eq_refl))).
Defined.

(** ** Provisioning: failures *)

Lemma createProfileIdentity_failure core validation random profile w e w' :
  createProfileIdentity core validation random profile w = (inl e, w') ->
  identities w' = identities w.
Proof.
  unfold createProfileIdentity, create, validate, IdentityRepository.create,
    withRandom, rpc, perform, bind, ret, throw. simpl.
  repeat next_answer; intros H; inversion H; reflexivity.
Qed.

Lemma createMarketIdentityForProfile_failure core validation profile w e w' :
  createMarketIdentityForProfile core validation profile w = (inl e, w') ->
  identities w' = identities w.
Proof.
  unfold createMarketIdentityForProfile, findProfileIdentity, toJSON,
    ProfileService.findOne, IdentityRepository.findOne,
    create, validate, IdentityRepository.create,
    rpc, perform, bind, ret, throw. simpl.
  repeat next_answer; intros H; inversion H; reflexivity.
Qed.

(** X10.  createProfileIdentity stores all or nothing: a run that fails,
    at whatever step, leaves the identity table as it was; a run that
    succeeds appends the one record it returns, under an id that no record
    had, and every record found before is still found. *)
Theorem createProfileIdentity_all_or_nothing
    (core : CoreRpcService.t) (validation : RequestValidation.t)
    (random : nat -> nat -> nat) (profile : Profile.t) (w : World) :
  let run := createProfileIdentity core validation random profile w in
  match fst run with
  | inl _ => identities (snd run) = identities w
  | inr r =>
      identities (snd run) = (identities w ++ [r])%list /\
      IdentityRepository.lookup (Identity.id r) (identities w) = None /\
      forall id old,
        IdentityRepository.lookup id (identities w) = Some old ->
        IdentityRepository.lookup id (identities (snd run)) = Some old
  end.
Proof.
  intros run. subst run.
  destruct (createProfileIdentity core validation random profile w)
    as [[e|r] w'] eqn:Hrun; simpl.
  - eapply createProfileIdentity_failure, Hrun.
  - destruct (createProfileIdentity_success core validation random profile w r w'
                Hrun)
      as (wallet & mnemonic & keys & mk & address & walletInfo
          & _ & _ & _ & Hr & Hrows).
    rewrite Hrows. split; [reflexivity|]. split.
    + rewrite Hr. apply lookup_nextId.
    + intros id old Hold. now apply lookup_app_old.
Qed.

(** X11.  createMarketIdentityForProfile stores all or nothing: a run that
    fails, at whatever step, leaves the identity table as it was; a run
    that succeeds appends the one record it returns, under an id that no
    record had, and every record found before is still found. *)
Theorem createMarketIdentityForProfile_all_or_nothing
    (core : CoreRpcService.t) (validation : RequestValidation.t)
    (profile : Profile.t) (w : World) :
  let run := createMarketIdentityForProfile core validation profile w in
  match fst run with
  | inl _ => identities (snd run) = identities w
  | inr r =>
      identities (snd run) = (identities w ++ [r])%list /\
      IdentityRepository.lookup (Identity.id r) (identities w) = None /\
      forall id old,
        IdentityRepository.lookup id (identities w) = Some old ->
        IdentityRepository.lookup id (identities (snd run)) = Some old
  end.
Proof.
  intros run. subst run.
  destruct (createMarketIdentityForProfile core validation profile w)
    as [[e|r] w'] eqn:Hrun; simpl.
  - eapply createMarketIdentityForProfile_failure, Hrun.
  - destruct (createMarketIdentityForProfile_success core validation profile
                w r w' Hrun)
      as (found & identity & profileIdentity & keys & mk & keyInfo
          & marketWallet & extKeyAlt & extKeyImported & marketAccount
          & address & walletInfo & _ & _ & _ & _ & _ & _ & Hr & Hrows).
    rewrite Hrows. split; [reflexivity|]. split.
    + rewrite Hr. apply lookup_nextId.
    + intros id old Hold. now apply lookup_app_old.
Qed.





(** ** Provisioning: the market identity *)

Lemma find_first {A} (f : A -> bool) (l : list A) (x : A) :
  find f l = Some x ->
  exists before after,
    l = (before ++ x :: after)%list /\ f x = true /\
    forall y, In y before -> f y = false.
Proof.
  induction l as [|a l IH]; simpl; [discriminate|].
  destruct (f a) eqn:E; intros H.
  - inversion H; subst. exists [], l. repeat split; [exact E | intros y []].
  - destruct (IH H) as (before & after & Hl & Hx & Hb).
    exists (a :: before), after. subst l. repeat split; [exact Hx|].
    intros y [<-|Hy]; [exact E | now apply Hb].
Qed.

(** X14.  Every run of createMarketIdentityForProfile makes an initial
    part of the calls profileService.findOne, identityRepository.findOne,
    extKeyList, extKeyInfo, createAndLoadWallet, extKeyAltVersion,
    extKeyImport, extKeySetMaster, extKeyDeriveAccount,
    extKeySetDefaultAccount, getNewAddress, getWalletInfo and
    identityRepository.create, in this order, and a successful run makes
    them all.  No run asks for a mnemonic or draws a random number. *)
Theorem createMarketIdentityForProfile_call_order
    (core : CoreRpcService.t) (validation : RequestValidation.t)
    (profile : Profile.t) (w : World) :
  let run := createMarketIdentityForProfile core validation profile w in
  let calls := events_since w (snd run) in
  (exists rest, (map operation calls ++ rest)%list = marketProtocol) /\
  (forall r, fst run = inr r -> map operation calls = marketProtocol) /\
  random_calls (snd run) = random_calls w.
Proof.
  unfold createMarketIdentityForProfile, findProfileIdentity, toJSON,
    ProfileService.findOne, IdentityRepository.findOne,
    create, validate, IdentityRepository.create,
    rpc, perform, bind, ret, throw. simpl.
  repeat next_answer; run_events;
    (split; [eexists; reflexivity | split; [|reflexivity]]);
    intros r Hr; try discriminate Hr; reflexivity.
Qed.

(** X15.  In a successful run of createMarketIdentityForProfile every
    argument comes from where the source takes it: the key listing and
    the key info are asked of the wallet named in the stored profile
    identity, the key info and the import are given the evkey of the
    first listed key that satisfies the master-key rule, the new wallet
    is asked under the name "profiles/" + the name of the profile +
    "/particl-market", every later call addresses the wallet by the name
    the wallet service reported for it, extKeySetMaster is given the id
    returned by extKeyImport and extKeySetDefaultAccount the account
    returned by extKeyDeriveAccount, and the stored record carries the
    reported wallet name, the address and the seed id returned by the
    last two calls. *)
Theorem createMarketIdentityForProfile_data_flow
    (core : CoreRpcService.t) (validation : RequestValidation.t)
    (profile : Profile.t) (w w' : World) (r : Identity.t) :
  createMarketIdentityForProfile core validation profile w = (inr r, w') ->
  exists found identity profileIdentity keys before masterKey after keyInfo
         marketWallet extKeyAlt extKeyImported marketAccount address walletInfo,
    let source := Identity.wallet profileIdentity in
    let name := RpcWallet.name marketWallet in
    let evkey := RpcExtKey.evkey masterKey in
    let body :=
      IdentityCreateRequest.mk (Profile.id profile) name address
        (Some (RpcWalletInfo.hdseedid walletInfo))
        (Some (RpcExtKeyInfo.path (RpcExtKeyResult.key_info keyInfo)))
        None None MARKET in
    events_since w w' =
      [ (ProfileFindOne (Profile.id profile) true, RProfile found);
        (RepoFindOne (Identity.id identity) true, RIdentity (Some profileIdentity));
        (ExtKeyList source true, RExtKeys keys);
        (ExtKeyInfo source evkey "4444446'/0'", RExtKeyResult keyInfo);
        (CreateAndLoadWallet
           ("profiles/" ++ Profile.name profile ++ "/particl-market") false true,
         RWallet marketWallet);
        (ExtKeyAltVersion evkey, RString extKeyAlt);
        (ExtKeyImport name evkey "master key" true, RExtKeyResult extKeyImported);
        (ExtKeySetMaster name (RpcExtKeyResult.id extKeyImported), RVoid);
        (ExtKeyDeriveAccount name "market account", RExtKeyResult marketAccount);
        (ExtKeySetDefaultAccount name (RpcExtKeyResult.account marketAccount),
         RVoid);
        (GetNewAddress name, RString address);
        (GetWalletInfo name, RWalletInfo walletInfo);
        (RepoCreate body, RIdentity (Some r)) ] /\
    keys = (before ++ masterKey :: after)%list /\
    masterKeyRule masterKey /\
    (forall key, In key before -> ~ masterKeyRule key) /\
    Identity.type identity = PROFILE /\
    In identity (Profile.Identities found) /\
    r = IdentityRepository.fromRequest (Identity.id r) body.
Proof.
  intros Hrun.
  destruct (createMarketIdentityForProfile_success core validation profile
              w r w' Hrun)
    as (found & identity & profileIdentity & keys & mk & keyInfo
        & marketWallet & extKeyAlt & extKeyImported & marketAccount
        & address & walletInfo & Hev & _ & Hid & _ & Hfind & _ & Hr & _).
  destruct (find_first _ _ _ Hfind) as (before & after & Hkeys & Hrule & Hbefore).
  exists found, identity, profileIdentity, keys, before, mk, after, keyInfo,
    marketWallet, extKeyAlt, extKeyImported, marketAccount, address, walletInfo.
  cbv zeta. split; [exact Hev|]. split; [exact Hkeys|].
  split; [now apply isMasterKey_spec|]. split.
  - intros key Hk Hr'. apply isMasterKey_spec in Hr'.
    rewrite (Hbefore key Hk) in Hr'. discriminate.
  - apply find_some in Hid. destruct Hid as [Hin Ht].
    apply IdentityType_eqb_eq in Ht.
    split; [exact Ht|]. split; [exact Hin|]. subst r. reflexivity.
Qed.

Lemma createMarketIdentityForProfile_data_flow_witness :
  exists r w',
    createMarketIdentityForProfile sampleCore requiredFields alice world0
      = (inr r, w') /\
    Identity.wallet r = "profiles/alice/particl-market" /\
    List.length (events_since world0 w') = 13%nat.
Proof.
  eexists _, _. split; [vm_compute; reflexivity|].
  edestruct (createMarketIdentityForProfile_data_flow sampleCore requiredFields
               alice world0)
    as (found & identity & profileIdentity & keys & before & mk & after
        & keyInfo & marketWallet & extKeyAlt & extKeyImported & marketAccount
        & address & walletInfo & Hev & _);
    [vm_compute; reflexivity|].
  split; [reflexivity|]. rewrite Hev. reflexivity.
Defined.

(** X16.  When the profile has no identity with the role PROFILE,
    createMarketIdentityForProfile fails with ModelNotFoundException before
    any call to the wallet or the store: its only call is the one to the
    profile service. *)
Theorem createMarketIdentityForProfile_without_profile_identity
    (core : CoreRpcService.t) (validation : RequestValidation.t)
    (profile found : Profile.t) (w : World) :
  find (fun p => Profile.id p =? Profile.id profile) (profiles w) = Some found ->
  (forall i, In i (Profile.Identities found) -> Identity.type i <> PROFILE) ->
  let run := createMarketIdentityForProfile core validation profile w in
  fst run = inl (ModelNotFoundException "Identity") /\
  events_since w (snd run)
    = [(ProfileFindOne (Profile.id profile) true, RProfile found)] /\
  identities (snd run) = identities w.
Proof.
  intros Hp Hnone.
  assert (Hf : find (fun p => IdentityType_eqb (Identity.type p) PROFILE)
                    (Profile.Identities found) = None).
  { apply find_none_iff. intros i Hi. specialize (Hnone i Hi).
    destruct (Identity.type i); [congruence | reflexivity]. }
  unfold createMarketIdentityForProfile, findProfileIdentity, toJSON,
    ProfileService.findOne, perform, bind, throw. rewrite Hp. simpl.
  rewrite Hf. simpl. split; [reflexivity|].
  split; [run_events; reflexivity | reflexivity].
Qed.

Lemma createMarketIdentityForProfile_without_profile_identity_witness :
  fst (createMarketIdentityForProfile sampleCore requiredFields bob world0)
    = inl (ModelNotFoundException "Identity").
Proof.
  refine (proj1 (createMarketIdentityForProfile_without_profile_identity
                   sampleCore requiredFields bob bob world0 eq_refl _)).
  intros i [].
Defined.

(** X17.  When the store has no record for the PROFILE identity found on
    the profile, createMarketIdentityForProfile fails with a TypeError, on
    the null returned by findProfileIdentity, and not with a
    NotFoundException; it makes no call to the wallet and changes nothing
    in the store. *)
Theorem createMarketIdentityForProfile_null_profile_identity
    (core : CoreRpcService.t) (validation : RequestValidation.t)
    (profile found : Profile.t) (identity : Identity.t) (w : World) :
  find (fun p => Profile.id p =? Profile.id profile) (profiles w) = Some found ->
  find (fun p => IdentityType_eqb (Identity.type p) PROFILE)
       (Profile.Identities found) = Some identity ->
  IdentityRepository.lookup (Identity.id identity) (identities w) = None ->
  let run := createMarketIdentityForProfile core validation profile w in
  (exists msg, fst run = inl (TypeError msg)) /\
  existsb isWalletCall (events_since w (snd run)) = false /\
  identities (snd run) = identities w.
Proof.
  intros Hp Hi Hl.
  unfold createMarketIdentityForProfile, findProfileIdentity, toJSON,
    ProfileService.findOne, IdentityRepository.findOne, perform, bind, throw.
  rewrite Hp. simpl. rewrite Hi. simpl. rewrite Hl. simpl.
  split; [eexists; reflexivity|]. run_events. repeat split; reflexivity.
Qed.

Lemma createMarketIdentityForProfile_null_profile_identity_witness :
  exists msg,
    fst (createMarketIdentityForProfile sampleCore requiredFields carol world0)
    = inl (TypeError msg).
Proof.
  exact (proj1 (createMarketIdentityForProfile_null_profile_identity
                  sampleCore requiredFields carol carol carolIdentity world0
                  eq_refl eq_refl eq_refl)).
Defined.

(** ** Provisioning: the profile identity *)


